(** * Bubble Prompt: the prompt-construction pipeline

    A shallow embedding of the classifier ([analyzeTask]), the CO-STAR
    builder ([CoStarBuilder], [PromptPresets]), the question wizard
    ([Wizard.handleNext]) and the application handlers of [App.jsx],
    followed by the properties of the specification that concern them.

    Strings are sequences of UTF-8 bytes ([string]); the literals of the
    definitions are the literals of the JavaScript source.  A JavaScript value
    that may be [undefined] or [null] is an [option], a call that may throw
    has a result of type [Outcome].  React state is passed explicitly: a
    handler maps the state of the render it was created in to the state of the
    next render. *)

From Stdlib Require Import String Ascii List Bool Arith ZArith NArith Lia.
Import ListNotations.
Open Scope string_scope.
Open Scope nat_scope.

(* ================================================================== *)
(** * JavaScript strings, arrays and plain objects *)

Module JS.

(** A thrown exception, by constructor name. *)
Inductive Error : Type := SyntaxError | TypeError.

Inductive Outcome (A : Type) : Type :=
| Returned (a : A)
| Threw (e : Error).
Arguments Returned {A} a.
Arguments Threw {A} e.

Definition bind {A B : Type} (m : Outcome A) (k : A -> Outcome B) : Outcome B :=
  match m with
  | Returned a => k a
  | Threw e => Threw e
  end.

Definition nl : string := String (ascii_of_nat 10) EmptyString.

(** Truthiness of a string: only the empty string is falsy. *)
Definition truthy (s : string) : bool :=
  match s with
  | EmptyString => false
  | String _ _ => true
  end.

(** [a || b] on strings. *)
Definition orElse (a b : string) : string := if truthy a then a else b.

(** [a || b] where [a] may be [undefined]. *)
Definition orElseU (a : option string) (b : string) : string :=
  match a with
  | Some s => orElse s b
  | None => b
  end.

Definition code (c : ascii) : nat := nat_of_ascii c.

Definition toLowerAscii (c : ascii) : ascii :=
  if (65 <=? code c) && (code c <=? 90) then ascii_of_nat (code c + 32) else c.

Definition toUpperAscii (c : ascii) : ascii :=
  if (97 <=? code c) && (code c <=? 122) then ascii_of_nat (code c - 32) else c.

Fixpoint mapString (f : ascii -> ascii) (s : string) : string :=
  match s with
  | EmptyString => EmptyString
  | String c t => String (f c) (mapString f t)
  end.

(** [s.toLowerCase()].  The case mapping is modelled on the ASCII letters.
    The keywords tested by the classifier consist of the letters
    c, d, e, h, n, o, p, t, y and of Chinese characters; no character outside
    A-Z has one of them in its lower-case mapping, so the tests below have the
    outcome they have under the full Unicode mapping. *)
Definition toLowerCase (s : string) : string := mapString toLowerAscii s.

(** [s.toUpperCase()], on the ASCII letters (question ids are ASCII). *)
Definition toUpperCase (s : string) : string := mapString toUpperAscii s.

(** [s.startsWith(p)]. *)
Definition startsWith (s p : string) : bool := String.prefix p s.

(** [s.includes(k)]: [k] occurs in [s] as a substring.  On well-formed UTF-8 an
    occurrence of the bytes of [k] starts at a character boundary. *)
Fixpoint includes (s k : string) : bool :=
  String.prefix k s ||
  match s with
  | EmptyString => false
  | String _ t => includes t k
  end.

(** [s.substring(n)] for an [n] that lies within an ASCII prefix of [s]. *)
Fixpoint substring (n : nat) (s : string) : string :=
  match n, s with
  | O, _ => s
  | S n', String _ t => substring n' t
  | S _, EmptyString => EmptyString
  end.

(** [s.split(sep)] for a separator [sep] of one ASCII character. *)
Fixpoint split (sep : ascii) (s : string) : list string :=
  match s with
  | EmptyString => [EmptyString]
  | String c t =>
      if Ascii.eqb c sep then EmptyString :: split sep t
      else match split sep t with
           | h :: r => String c h :: r
           | [] => [String c EmptyString]
           end
  end.

(** [a.join(sep)]. *)
Definition join (sep : string) (a : list string) : string := String.concat sep a.

(** ** [String.prototype.trim]

    White space and line terminators of ECMAScript, in UTF-8:
    U+0009..U+000D, U+0020 (one byte); U+00A0 (two bytes); U+1680,
    U+2000..U+200A, U+2028, U+2029, U+202F, U+205F, U+3000, U+FEFF (three
    bytes). *)
Definition ws1 (c : ascii) : bool :=
  ((9 <=? code c) && (code c <=? 13)) || (code c =? 32).

Definition ws2 (c1 c2 : ascii) : bool :=
  (code c1 =? 194) && (code c2 =? 160).

Definition ws3 (c1 c2 c3 : ascii) : bool :=
  ((code c1 =? 225) && (code c2 =? 154) && (code c3 =? 128))
  || ((code c1 =? 226) && (code c2 =? 128)
      && (((128 <=? code c3) && (code c3 <=? 138))
          || (code c3 =? 168) || (code c3 =? 169) || (code c3 =? 175)))
  || ((code c1 =? 226) && (code c2 =? 129) && (code c3 =? 159))
  || ((code c1 =? 227) && (code c2 =? 128) && (code c3 =? 128))
  || ((code c1 =? 239) && (code c2 =? 187) && (code c3 =? 191)).

Fixpoint trimStartL (l : list ascii) : list ascii :=
  match l with
  | [] => []
  | c1 :: t1 =>
      if ws1 c1 then trimStartL t1
      else match t1 with
           | [] => l
           | c2 :: t2 =>
               if ws2 c1 c2 then trimStartL t2
               else match t2 with
                    | [] => l
                    | c3 :: t3 => if ws3 c1 c2 c3 then trimStartL t3 else l
                    end
           end
  end.

(** The same on a reversed byte sequence: the last byte of a character comes
    first. *)
Fixpoint trimStartR (l : list ascii) : list ascii :=
  match l with
  | [] => []
  | c1 :: t1 =>
      if ws1 c1 then trimStartR t1
      else match t1 with
           | [] => l
           | c2 :: t2 =>
               if ws2 c2 c1 then trimStartR t2
               else match t2 with
                    | [] => l
                    | c3 :: t3 => if ws3 c3 c2 c1 then trimStartR t3 else l
                    end
           end
  end.

Definition trimL (l : list ascii) : list ascii :=
  rev (trimStartR (rev (trimStartL l))).

(** [s.trim()]. *)
Definition trim (s : string) : string :=
  string_of_list_ascii (trimL (list_ascii_of_string s)).

(** ** Plain objects with string values

    The own enumerable properties in creation order.  Assigning to an existing
    key keeps its place; assigning a string to [__proto__] reaches the setter
    of [Object.prototype], which ignores a value that is not an object, and
    creates no property. *)
Definition Obj : Type := list (string * string).

Definition empty : Obj := [].

(** The own property [k] of [o], if there is one. *)
Fixpoint get (o : Obj) (k : string) : option string :=
  match o with
  | [] => None
  | (k', v) :: r => if String.eqb k' k then Some v else get r k
  end.

Fixpoint put (o : Obj) (k v : string) : Obj :=
  match o with
  | [] => [(k, v)]
  | (k', v') :: r => if String.eqb k' k then (k', v) :: r else (k', v') :: put r k v
  end.

(** [o[k] = v]. *)
Definition set (o : Obj) (k v : string) : Obj :=
  if String.eqb k "__proto__" then o else put o k v.

(** [{ ...o }]: a fresh object with the same properties in the same order. *)
Definition spread (o : Obj) : Obj := o.

(** A key that is an array index (a canonical decimal numeral below
    [2^32 - 1]); such keys are enumerated first, in ascending order. *)
Definition digit (c : ascii) : option N :=
  if (48 <=? code c) && (code c <=? 57) then Some (N.of_nat (code c - 48)) else None.

Fixpoint digits (acc : N) (s : string) : option N :=
  match s with
  | EmptyString => Some acc
  | String c t =>
      match digit c with
      | Some d => digits (acc * 10 + d) t
      | None => None
      end
  end.

Definition arrayIndex (k : string) : option N :=
  match k with
  | EmptyString => None
  | String c t =>
      if Ascii.eqb c "0"%char && truthy t then None
      else match digits 0 k with
           | Some n => if (n <? 4294967295)%N then Some n else None
           | None => None
           end
  end.

Fixpoint insertIndexed (e : N * (string * string)) (l : list (N * (string * string)))
  : list (N * (string * string)) :=
  match l with
  | [] => [e]
  | e' :: r => if (fst e <=? fst e')%N then e :: l else e' :: insertIndexed e r
  end.

Fixpoint indexed (o : Obj) : list (N * (string * string)) :=
  match o with
  | [] => []
  | (k, v) :: r =>
      match arrayIndex k with
      | Some n => insertIndexed (n, (k, v)) (indexed r)
      | None => indexed r
      end
  end.

Definition named (o : Obj) : Obj :=
  filter (fun kv => match arrayIndex (fst kv) with Some _ => false | None => true end) o.

(** [Object.entries(o)]. *)
Definition entries (o : Obj) : list (string * string) :=
  map snd (indexed o) ++ named o.

End JS.

(* ================================================================== *)
(** * utils/mockAI.js: the keyword classifier *)

Module MockAI.
Import JS.

Record Question : Type := mkQuestion {
  id : string;
  text : string;
  subText : string
}.

Record Analysis : Type := mkAnalysis {
  type : string;
  recommendedQuestions : list Question
}.

Definition analyzeTask (input : string) : Analysis :=
  let lowerInput := toLowerCase input in
  if includes lowerInput "代码" || includes lowerInput "code"
     || includes lowerInput "脚本" || includes lowerInput "python"
  then
    {| type := "Coding";
       recommendedQuestions :=
         [ {| id := "q_lang"; text := "什么语言？"; subText := "例如: Python, JavaScript, C++" |};
           {| id := "q_func"; text := "具体功能？"; subText := "例如: 数据清洗, 网页爬虫, 排序算法" |};
           {| id := "q_lib"; text := "涉及的库或框架？"; subText := "例如: React, Pandas, Tailwind" |} ] |}
  else if includes lowerInput "文案" || includes lowerInput "copy"
          || includes lowerInput "宣传" || includes lowerInput "小红书"
  then
    {| type := "MarketingCopy";
       recommendedQuestions :=
         [ {| id := "q_platform"; text := "发布平台？"; subText := "例如: 小红书, 朋友圈, 抖音" |};
           {| id := "q_audience"; text := "目标受众？"; subText := "例如: 大学生, 宝妈, 职场新人" |};
           {| id := "q_goal"; text := "核心目的？"; subText := "例如: 增加点击, 促进下单, 品牌曝光" |} ] |}
  else
    {| type := "General";
       recommendedQuestions :=
         [ {| id := "q_detail"; text := "具体细节？"; subText := "补充更多关于任务的背景信息" |};
           {| id := "q_audience"; text := "写给谁看？"; subText := "目标读者或受众是谁" |};
           {| id := "q_format"; text := "输出格式？"; subText := "例如: 列表, 表格, 纯文本" |} ] |}.

End MockAI.

(* ================================================================== *)
(** * utils/promptEngine.js: the CO-STAR builder and its presets *)

Module PromptEngine.
Import JS.

Record CoStarBuilder : Type := mkBuilder {
  context : string;
  objective : string;
  style : list string;
  tone : string;
  audience : string;
  responseFormat : string;
  constraints : list string;
  userInputs : Obj
}.

(** [new CoStarBuilder()]. *)
Definition new : CoStarBuilder :=
  {| context := EmptyString; objective := EmptyString; style := [];
     tone := EmptyString; audience := EmptyString; responseFormat := EmptyString;
     constraints := []; userInputs := empty |}.

(** The builder is one mutable object that every method returns; a method is
    a function from the object before the call to the object after it. *)
Definition setObjective (task : string) (b : CoStarBuilder) : CoStarBuilder :=
  {| context := context b; objective := task; style := style b; tone := tone b;
     audience := audience b; responseFormat := responseFormat b;
     constraints := constraints b; userInputs := userInputs b |}.

Definition setContext (industry : string) (customContext : string) (b : CoStarBuilder)
  : CoStarBuilder :=
  {| context := "你是一位 " ++ orElse industry "通用" ++ " 领域的专家。 " ++ customContext;
     objective := objective b; style := style b; tone := tone b;
     audience := audience b; responseFormat := responseFormat b;
     constraints := constraints b; userInputs := userInputs b |}.

Definition addStyle (styleTag : string) (b : CoStarBuilder) : CoStarBuilder :=
  {| context := context b; objective := objective b;
     style := (style b ++ [styleTag])%list; tone := tone b;
     audience := audience b; responseFormat := responseFormat b;
     constraints := constraints b; userInputs := userInputs b |}.

Definition setAudience (a : string) (b : CoStarBuilder) : CoStarBuilder :=
  {| context := context b; objective := objective b; style := style b; tone := tone b;
     audience := a; responseFormat := responseFormat b;
     constraints := constraints b; userInputs := userInputs b |}.

Definition addConstraint (constraint : string) (b : CoStarBuilder) : CoStarBuilder :=
  {| context := context b; objective := objective b; style := style b; tone := tone b;
     audience := audience b; responseFormat := responseFormat b;
     constraints := (constraints b ++ [constraint])%list; userInputs := userInputs b |}.

Definition setResponseFormat (format : string) (b : CoStarBuilder) : CoStarBuilder :=
  {| context := context b; objective := objective b; style := style b; tone := tone b;
     audience := audience b; responseFormat := format;
     constraints := constraints b; userInputs := userInputs b |}.

Definition setUserInputs (inputs : Obj) (b : CoStarBuilder) : CoStarBuilder :=
  {| context := context b; objective := objective b; style := style b; tone := tone b;
     audience := audience b; responseFormat := responseFormat b;
     constraints := constraints b; userInputs := inputs |}.

(** The pieces of the template literal of [build], in the order of the source. *)
Definition styleStr (b : CoStarBuilder) : string := join "、" (style b).

Definition inputsStr (b : CoStarBuilder) : string :=
  join nl
    (map (fun kv =>
            let label := if startsWith (fst kv) "q_"
                         then toUpperCase (substring 2 (fst kv)) else fst kv in
            "- **" ++ label ++ "**: " ++ snd kv)
         (entries (userInputs b))).

Definition roleSection (b : CoStarBuilder) : string :=
  "# 🚀 角色设定 (SYSTEM ROLE)" ++ nl ++
  context b ++ nl.

Definition coStarSection (b : CoStarBuilder) : string :=
  "# 🎯 核心任务 (CO-STAR)" ++ nl ++
  "**背景 (Context)**: 服务于 " ++ orElseU (nth_error (split " "%char (context b)) 1) "目标" ++ " 行业。" ++ nl ++
  "**目标 (Objective)**: " ++ objective b ++ nl ++
  "**风格 (Style)**: " ++ orElse (styleStr b) "专业、清晰" ++ nl ++
  "**受众 (Audience)**: " ++ orElse (audience b) "普通用户" ++ nl ++
  "**格式 (Response)**: " ++ orElse (responseFormat b) "结构化 Markdown" ++ nl.

Definition inputsSection (b : CoStarBuilder) : string :=
  "# 📝 用户输入信息" ++ nl ++
  inputsStr b ++ nl.

Definition chainSection (b : CoStarBuilder) : string :=
  "# ⛓️ 思考链路 (Chain of Thought)" ++ nl ++
  "1. 分析用户的核心目标和受众群体。" ++ nl ++
  "2. 识别关键限制条件和风格要求。" ++ nl ++
  "3. 构思内容结构，确保逻辑清晰、重点突出。" ++ nl ++
  "4. 调整语气以匹配用户要求的风格：" ++ styleStr b ++ "。" ++ nl ++
  "5. 按照指定格式输出最终结果。" ++ nl.

Definition constraintsSection (b : CoStarBuilder) : string :=
  "# ⛔ 限制条件与质量控制" ++ nl ++
  orElse (join nl (map (fun c => "- " ++ c) (constraints b))) "- 无特殊限制。" ++ nl ++
  "- 严禁捏造事实 (No Hallucination)。" ++ nl ++
  "- 确保输出内容可直接用于生产环境。" ++ nl ++
  "- 保持 " ++ orElseU (nth_error (style b) 0) "专业" ++ " 的语调。" ++ nl.

Definition footer : string := "# 👇 请在下方生成回复".

Definition template (b : CoStarBuilder) : string :=
  nl ++
  roleSection b ++ nl ++
  coStarSection b ++ nl ++
  inputsSection b ++ nl ++
  chainSection b ++ nl ++
  constraintsSection b ++ nl ++
  footer ++ nl.

Definition build (b : CoStarBuilder) : string := trim (template b).

(** [PromptPresets]. *)
Definition marketing (builder : CoStarBuilder) : CoStarBuilder :=
  setResponseFormat "文案格式 (标题 + 正文 + 行动号召)"
    (addConstraint "强调产品/服务带来的利益，而非仅仅列举功能。"
       (addConstraint "使用具有说服力的心理学技巧 (如 FOMO, 社会认同)。" builder)).

Definition coding (builder : CoStarBuilder) : CoStarBuilder :=
  setResponseFormat "代码块 + Markdown 解释"
    (addConstraint "为复杂的逻辑逻辑添加中文注释。"
       (addConstraint "遵循 Clean Code 代码规范。" builder)).

Definition academic (builder : CoStarBuilder) : CoStarBuilder :=
  setResponseFormat "学术论文结构 (摘要, 引言, 主体, 结论)"
    (addConstraint "如有引用，请注明来源。"
       (addConstraint "使用严谨的学术语言。" builder)).

End PromptEngine.

(* ================================================================== *)
(** * components/Wizard.jsx: the question wizard *)

Module Wizard.
Import JS MockAI.

(** The component state: [currentIndex], [answers], [currentAnswer]. *)
Record State : Type := mkState {
  currentIndex : nat;
  answers : Obj;
  currentAnswer : string
}.

(** The state of a freshly mounted wizard. *)
Definition initial : State :=
  {| currentIndex := 0; answers := empty; currentAnswer := EmptyString |}.

(** The text area's [onChange]. *)
Definition setCurrentAnswer (v : string) (w : State) : State :=
  {| currentIndex := currentIndex w; answers := answers w; currentAnswer := v |}.

(** [handleNext(skip)].  The result is the next component state and, when
    [onComplete] is called, its argument.  [currentQuestion] is
    [questions[currentIndex]]; reading [.id] of [undefined] throws. *)
Definition handleNext (questions : list Question) (skip : bool) (w : State)
  : Outcome (State * option Obj) :=
  let currentQuestion := nth_error questions (currentIndex w) in
  let newAnswers := spread (answers w) in
  bind
    (if negb skip && truthy (trim (currentAnswer w)) then
       match currentQuestion with
       | Some q => Returned (set newAnswers (id q) (currentAnswer w))
       | None => Threw TypeError
       end
     else Returned newAnswers)
    (fun newAnswers =>
       if (Z.of_nat (currentIndex w) <? Z.of_nat (length questions) - 1)%Z then
         Returned ({| currentIndex := currentIndex w + 1; answers := newAnswers;
                      currentAnswer := EmptyString |}, None)
       else
         Returned ({| currentIndex := currentIndex w; answers := newAnswers;
                      currentAnswer := EmptyString |}, Some newAnswers)).

(** One step of the user on the current question: the content of the text
    area when a button is pressed, and which button (skip or next). *)
Record Step : Type := mkStep {
  typed : string;
  skip : bool
}.

Definition answer (s : string) : Step := {| typed := s; skip := false |}.
Definition skipIt : Step := {| typed := EmptyString; skip := true |}.

Definition step (questions : list Question) (s : Step) (w : State)
  : Outcome (State * option Obj) :=
  handleNext questions (skip s) (setCurrentAnswer (typed s) w).

(** A sequence of steps.  Once [onComplete] has been called the application
    leaves the wizard, so later steps reach no wizard. *)
Fixpoint run (questions : list Question) (steps : list Step) (w : State)
  : Outcome (State * option Obj) :=
  match steps with
  | [] => Returned (w, None)
  | s :: rest =>
      match step questions s w with
      | Threw e => Threw e
      | Returned (w', Some done) => Returned (w', Some done)
      | Returned (w', None) => run questions rest w'
      end
  end.

End Wizard.

(* ================================================================== *)
(** * App.jsx: application state and handlers *)

Module Template.
Import JS.

(** A saved template, as [handleSaveTemplate] builds it. *)
Record t : Type := mk {
  id : Z;
  name : string;
  date : string;
  taskInput : string;
  taskType : string;
  answers : Obj;
  selectedStyles : list string;
  selectedIndustries : list string;
  generatedPrompt : string;
  tags : list string
}.

End Template.

Module App.
Import JS MockAI.

Inductive Step : Type := input | wizard | tagging | result.

(** The [useState] cells of [App] that the pipeline uses (the bubbles and the
    weather theme are left out). *)
Record State : Type := mkState {
  step : Step;
  taskInput : string;
  taskType : string;
  questions : list Question;
  answers : Obj;
  generatedPrompt : string;
  selectedStyles : list string;
  selectedIndustries : list string;
  templates : list Template.t;
  isSidebarOpen : bool
}.

(** The initial values given to [useState]. *)
Definition initial : State :=
  {| step := input; taskInput := EmptyString; taskType := "General"; questions := [];
     answers := empty; generatedPrompt := EmptyString;
     selectedStyles := ["直接"]; selectedIndustries := [];
     templates := []; isSidebarOpen := false |}.

(** What the key [bubble_templates] of [localStorage] holds.  The browser's
    storage and JSON functions are not code of the application; a stored text
    is represented by what [JSON.parse] does with it: the text that
    [JSON.stringify] wrote for a list of templates is read back as that list,
    and a text that is not JSON is rejected with a [SyntaxError].  (A text
    that is JSON but no list of templates does not occur in a storage that
    only the application writes, and is not represented.) *)
Inductive Stored : Type :=
| JSONOf (ts : list Template.t)
| NotJSON (s : string).

(** The application state together with the storage, [None] when the key is
    absent ([getItem] returns [null]). *)
Record World : Type := mkWorld {
  app : State;
  bubble_templates : option Stored
}.

(** Truthiness of the string that [getItem] returns; the JSON text of an array
    is never empty. *)
Definition storedTruthy (saved : Stored) : bool :=
  match saved with
  | JSONOf _ => true
  | NotJSON s => truthy s
  end.

Definition JSON_parse (saved : Stored) : Outcome (list Template.t) :=
  match saved with
  | JSONOf ts => Returned ts
  | NotJSON _ => Threw SyntaxError
  end.

Definition setStep (s : Step) (st : State) : State :=
  {| step := s; taskInput := taskInput st; taskType := taskType st;
     questions := questions st; answers := answers st;
     generatedPrompt := generatedPrompt st; selectedStyles := selectedStyles st;
     selectedIndustries := selectedIndustries st; templates := templates st;
     isSidebarOpen := isSidebarOpen st |}.

Definition setTemplates (ts : list Template.t) (st : State) : State :=
  {| step := step st; taskInput := taskInput st; taskType := taskType st;
     questions := questions st; answers := answers st;
     generatedPrompt := generatedPrompt st; selectedStyles := selectedStyles st;
     selectedIndustries := selectedIndustries st; templates := ts;
     isSidebarOpen := isSidebarOpen st |}.

Definition setIsSidebarOpen (o : bool) (st : State) : State :=
  {| step := step st; taskInput := taskInput st; taskType := taskType st;
     questions := questions st; answers := answers st;
     generatedPrompt := generatedPrompt st; selectedStyles := selectedStyles st;
     selectedIndustries := selectedIndustries st; templates := templates st;
     isSidebarOpen := o |}.

Definition setSelectedStyles (l : list string) (st : State) : State :=
  {| step := step st; taskInput := taskInput st; taskType := taskType st;
     questions := questions st; answers := answers st;
     generatedPrompt := generatedPrompt st; selectedStyles := l;
     selectedIndustries := selectedIndustries st; templates := templates st;
     isSidebarOpen := isSidebarOpen st |}.

Definition setSelectedIndustries (l : list string) (st : State) : State :=
  {| step := step st; taskInput := taskInput st; taskType := taskType st;
     questions := questions st; answers := answers st;
     generatedPrompt := generatedPrompt st; selectedStyles := selectedStyles st;
     selectedIndustries := l; templates := templates st;
     isSidebarOpen := isSidebarOpen st |}.

(** The effect that loads the templates when the application is mounted. *)
Definition loadTemplates (w : World) : Outcome World :=
  match bubble_templates w with
  | None => Returned w
  | Some saved =>
      if storedTruthy saved then
        bind (JSON_parse saved) (fun ts =>
          Returned {| app := setTemplates ts (app w);
                      bubble_templates := bubble_templates w |})
      else Returned w
  end.

(** [handleStart(input)]. *)
Definition handleStart (inp : string) (st : State) : State :=
  let analysis := analyzeTask inp in
  {| step := wizard; taskInput := inp; taskType := type analysis;
     questions := recommendedQuestions analysis; answers := answers st;
     generatedPrompt := generatedPrompt st; selectedStyles := selectedStyles st;
     selectedIndustries := selectedIndustries st; templates := templates st;
     isSidebarOpen := isSidebarOpen st |}.

(** [handleSubmit] of the [TaskInput] component: only an input that is not
    blank reaches [onStart]. *)
Definition handleSubmit (inp : string) (st : State) : State :=
  if truthy (trim inp) then handleStart inp st else st.

(** [handleWizardComplete(collectedAnswers)]. *)
Definition handleWizardComplete (collectedAnswers : Obj) (st : State) : State :=
  {| step := tagging; taskInput := taskInput st; taskType := taskType st;
     questions := questions st; answers := collectedAnswers;
     generatedPrompt := generatedPrompt st; selectedStyles := selectedStyles st;
     selectedIndustries := selectedIndustries st; templates := templates st;
     isSidebarOpen := isSidebarOpen st |}.

(** The [onToggle] of a tag selector:
    [p.includes(t) ? p.filter(x => x !== t) : [...p, t]]. *)
Definition toggle (t : string) (p : list string) : list string :=
  if existsb (String.eqb t) p then filter (fun x => negb (String.eqb x t)) p
  else (p ++ [t])%list.

Definition toggleStyle (t : string) (st : State) : State :=
  setSelectedStyles (toggle t (selectedStyles st)) st.

Definition toggleIndustry (t : string) (st : State) : State :=
  setSelectedIndustries (toggle t (selectedIndustries st)) st.

(** The builder at the moment [handleGenerate] calls [build]. *)
Definition configuredBuilder (st : State) : PromptEngine.CoStarBuilder :=
  let builder := PromptEngine.new in
  let builder := PromptEngine.setObjective (taskInput st) builder in
  let builder :=
    PromptEngine.setContext (orElseU (nth_error (selectedIndustries st) 0) "通用")
      EmptyString builder in
  let builder := PromptEngine.setUserInputs (answers st) builder in
  let builder :=
    fold_left (fun b s => PromptEngine.addStyle s b) (selectedStyles st) builder in
  let builder :=
    if String.eqb (taskType st) "Coding" then PromptEngine.coding builder else builder in
  let builder :=
    if String.eqb (taskType st) "MarketingCopy" then PromptEngine.marketing builder
    else builder in
  if negb (truthy (PromptEngine.responseFormat builder))
  then PromptEngine.setResponseFormat "Markdown 结构化格式" builder
  else builder.

(** [handleGenerate()]. *)
Definition handleGenerate (st : State) : State :=
  let prompt := PromptEngine.build (configuredBuilder st) in
  {| step := result; taskInput := taskInput st; taskType := taskType st;
     questions := questions st; answers := answers st;
     generatedPrompt := prompt; selectedStyles := selectedStyles st;
     selectedIndustries := selectedIndustries st; templates := templates st;
     isSidebarOpen := isSidebarOpen st |}.

(** [handleSaveTemplate()].  [name] is what the [prompt] dialog returns
    ([None] for [null]), [now] is [Date.now()] and [iso] is
    [new Date().toISOString()]. *)
Definition handleSaveTemplate (name : option string) (now : Z) (iso : string) (w : World)
  : World :=
  match name with
  | None => w
  | Some name =>
      if negb (truthy name) then w
      else
        let st := app w in
        let newTpl :=
          {| Template.id := now;
             Template.name := name;
             Template.date := iso;
             Template.taskInput := taskInput st;
             Template.taskType := taskType st;
             Template.answers := answers st;
             Template.selectedStyles := selectedStyles st;
             Template.selectedIndustries := selectedIndustries st;
             Template.generatedPrompt := generatedPrompt st;
             Template.tags := (selectedStyles st ++ selectedIndustries st)%list |} in
        let newTemplates := newTpl :: templates st in
        {| app := setIsSidebarOpen true (setTemplates newTemplates st);
           bubble_templates := Some (JSONOf newTemplates) |}
  end.

(** [handleDeleteTemplate(id)]. *)
Definition handleDeleteTemplate (id : Z) (w : World) : World :=
  let newTemplates :=
    filter (fun t => negb (Z.eqb (Template.id t) id)) (templates (app w)) in
  {| app := setTemplates newTemplates (app w);
     bubble_templates := Some (JSONOf newTemplates) |}.

(** [handleLoadTemplate(tpl)]. *)
Definition handleLoadTemplate (tpl : Template.t) (st : State) : State :=
  {| step := result; taskInput := Template.taskInput tpl; taskType := taskType st;
     questions := questions st; answers := Template.answers tpl;
     generatedPrompt := Template.generatedPrompt tpl;
     selectedStyles := Template.selectedStyles tpl;
     selectedIndustries := Template.selectedIndustries tpl;
     templates := templates st; isSidebarOpen := false |}.

(** The [onRestart] given to the result view, and the click on the logo:
    [() => setStep('input')]. *)
Definition onRestart (st : State) : State := setStep input st.

(** The two operations on the template collection, and a sequence of them. *)
Inductive TemplateOp : Type :=
| Save (name : option string) (now : Z) (iso : string)
| Delete (id : Z).

Definition applyOp (w : World) (op : TemplateOp) : World :=
  match op with
  | Save name now iso => handleSaveTemplate name now iso w
  | Delete id => handleDeleteTemplate id w
  end.

Definition applyOps (ops : list TemplateOp) (w : World) : World :=
  fold_left applyOp ops w.

Definition ids (w : World) : list Z := map Template.id (templates (app w)).

(** Every save of [ops] that stores a template reads a clock value that is not
    the id of a template in the collection at that moment. *)
Fixpoint clockFresh (ops : list TemplateOp) (w : World) : bool :=
  match ops with
  | [] => true
  | op :: rest =>
      match op with
      | Save (Some name) now _ =>
          if truthy name then negb (existsb (Z.eqb now) (ids w)) else true
      | _ => true
      end && clockFresh rest (applyOp w op)
  end.

End App.

(* ================================================================== *)
(** * Vocabulary of the properties *)

Module Props.
Import JS MockAI.

(** The keywords of the two rules of [analyzeTask], in the order of the
    source. *)
Definition codingKeywords : list string := ["代码"; "code"; "脚本"; "python"].
Definition marketingKeywords : list string := ["文案"; "copy"; "宣传"; "小红书"].

(** Some keyword of the list occurs in the input, letter case ignored. *)
Definition mentions (input : string) (keywords : list string) : bool :=
  existsb (includes (toLowerCase input)) keywords.

(** The lines of a text. *)
Definition lines (s : string) : list string := split (ascii_of_nat 10) s.

(** The answer map has an own property [k]. *)
Definition hasKey (o : Obj) (k : string) : Prop := get o k <> None.

(** A step of the wizard that records its text: the next button, with a text
    that is not blank. *)
Definition records (s : Wizard.Step) : bool :=
  negb (Wizard.skip s) && truthy (trim (Wizard.typed s)).

(** No property of the object is the empty string. *)
Definition nonEmptyValues (o : Obj) : Prop :=
  forall k v, get o k = Some v -> v <> EmptyString.

(** [addConstraint] called for each string of a list, in order. *)
Definition addConstraints (cs : list string) (b : PromptEngine.CoStarBuilder)
  : PromptEngine.CoStarBuilder :=
  fold_left (fun b c => PromptEngine.addConstraint c b) cs b.

(** A finished session: the input 帮我写一段小红书文案, the first question
    answered and the others skipped, one style and one industry chosen in
    addition to the initial selection, and the prompt generated. *)
Definition finishedSession : App.State :=
  let st1 := App.handleSubmit "帮我写一段小红书文案" App.initial in
  let collected :=
    match Wizard.run (App.questions st1)
            [Wizard.answer "小红书"; Wizard.skipIt; Wizard.skipIt] Wizard.initial with
    | Returned (_, Some a) => a
    | _ => empty
    end in
  App.handleGenerate
    (App.toggleIndustry "电商"
       (App.toggleStyle "幽默风趣" (App.handleWizardComplete collected st1))).

(** The white space characters of [trim], as byte sequences, and the texts
    that consist of them. *)
Definition whiteSpace : list (list ascii) :=
  map (map ascii_of_nat)
    [[9]; [10]; [11]; [12]; [13]; [32]; [194; 160]; [225; 154; 128];
     [226; 128; 128]; [226; 128; 129]; [226; 128; 130]; [226; 128; 131];
     [226; 128; 132]; [226; 128; 133]; [226; 128; 134]; [226; 128; 135];
     [226; 128; 136]; [226; 128; 137]; [226; 128; 138]; [226; 128; 168];
     [226; 128; 169]; [226; 128; 175]; [226; 129; 159]; [227; 128; 128];
     [239; 187; 191]].

Definition whitespaceOnly (s : string) : Prop :=
  exists chars, Forall (fun c => In c whiteSpace) chars
                /\ list_ascii_of_string s = concat chars.

(** Every save of [ops] reads a clock value above [last], the largest value
    read so far. *)
Fixpoint clockAdvances (last : Z) (ops : list App.TemplateOp) : bool :=
  match ops with
  | [] => true
  | App.Save _ now _ :: rest => (last <? now)%Z && clockAdvances now rest
  | App.Delete _ :: rest => clockAdvances last rest
  end.

(** Question ids that are ordinary property names. *)
Definition ordinaryIds (questions : list Question) : Prop :=
  Forall (fun q => id q <> "__proto__") questions.

End Props.

(* ================================================================== *)
(** * App.jsx: the rendered page as a machine of user events *)

Module Page.
Import JS MockAI.

(** The options of the two tag selectors. *)
Definition styleOptions : list string :=
  ["专业严谨"; "幽默风趣"; "温暖治愈"; "简洁明了"; "极客硬核"; "逻辑缜密"].
Definition industryOptions : list string :=
  ["互联网"; "教育"; "金融"; "电商"; "医疗"; "法律"; "创意写作"].

(** The application with its storage, and the state of the [Wizard]
    component, which is mounted (afresh) while the step is [wizard]. *)
Record State : Type := mkState {
  world : App.World;
  wizardState : Wizard.State
}.

(** The page when the application is first opened: nothing stored. *)
Definition fresh : State :=
  {| world := {| App.app := App.initial; App.bubble_templates := None |};
     wizardState := Wizard.initial |}.

(** What the user can do.  An element that the render does not put on the
    page in the current step gives no event: the task form exists in the step
    [input], the wizard in [wizard], the tag selectors (one button per option)
    and the generate button in [tagging], the result view in [result]; the
    logo, the sidebar button and the sidebar with one entry per template are
    rendered in every step. *)
Inductive Event : Type :=
| Submit (inp : string)
| Press (s : Wizard.Step)
| ToggleStyle (t : string)
| ToggleIndustry (t : string)
| Generate
| ClickSave (name : option string) (now : Z) (iso : string)
| Restart
| Logo
| OpenSidebar
| CloseSidebar
| ClickLoad (n : nat)
| ClickDelete (n : nat)
| Reload.

Definition onApp (f : App.State -> App.State) (s : State) : State :=
  {| world := {| App.app := f (App.app (world s));
                 App.bubble_templates := App.bubble_templates (world s) |};
     wizardState := wizardState s |}.

Definition onWorld (f : App.World -> App.World) (s : State) : State :=
  {| world := f (world s); wizardState := wizardState s |}.

Definition dispatch (e : Event) (s : State) : Outcome State :=
  let st := App.app (world s) in
  match e with
  | Submit inp =>
      match App.step st with
      | App.input =>
          Returned {| world := world (onApp (App.handleSubmit inp) s);
                      wizardState := Wizard.initial |}
      | _ => Returned s
      end
  | Press ws =>
      match App.step st with
      | App.wizard =>
          match Wizard.step (App.questions st) ws (wizardState s) with
          | Threw e => Threw e
          | Returned (w', None) => Returned {| world := world s; wizardState := w' |}
          | Returned (w', Some collected) =>
              Returned {| world := world (onApp (App.handleWizardComplete collected) s);
                          wizardState := w' |}
          end
      | _ => Returned s
      end
  | ToggleStyle t =>
      match App.step st with
      | App.tagging =>
          if existsb (String.eqb t) styleOptions
          then Returned (onApp (App.toggleStyle t) s) else Returned s
      | _ => Returned s
      end
  | ToggleIndustry t =>
      match App.step st with
      | App.tagging =>
          if existsb (String.eqb t) industryOptions
          then Returned (onApp (App.toggleIndustry t) s) else Returned s
      | _ => Returned s
      end
  | Generate =>
      match App.step st with
      | App.tagging => Returned (onApp App.handleGenerate s)
      | _ => Returned s
      end
  | ClickSave name now iso =>
      match App.step st with
      | App.result => Returned (onWorld (App.handleSaveTemplate name now iso) s)
      | _ => Returned s
      end
  | Restart =>
      match App.step st with
      | App.result => Returned (onApp App.onRestart s)
      | _ => Returned s
      end
  | Logo => Returned (onApp (App.setStep App.input) s)
  | OpenSidebar => Returned (onApp (App.setIsSidebarOpen true) s)
  | CloseSidebar => Returned (onApp (App.setIsSidebarOpen false) s)
  | ClickLoad n =>
      match nth_error (App.templates st) n with
      | Some tpl => Returned (onApp (App.handleLoadTemplate tpl) s)
      | None => Returned s
      end
  | ClickDelete n =>
      match nth_error (App.templates st) n with
      | Some tpl => Returned (onWorld (App.handleDeleteTemplate (Template.id tpl)) s)
      | None => Returned s
      end
  | Reload =>
      bind (App.loadTemplates {| App.app := App.initial;
                                 App.bubble_templates := App.bubble_templates (world s) |})
           (fun w => Returned {| world := w; wizardState := Wizard.initial |})
  end.

(** A sequence of events; a thrown error ends it. *)
Fixpoint run (events : list Event) (s : State) : Outcome State :=
  match events with
  | [] => Returned s
  | e :: rest => bind (dispatch e s) (run rest)
  end.

End Page.

(* ================================================================== *)
(** * Vocabulary of the further properties *)

Module MoreProps.
Import JS MockAI.

(** The tone line of a prompt whose first style is 直接. *)
Definition toneLine : string := "- 保持 " ++ "直接" ++ " 的语调。".

(** Category and questions are those the classifier gives for the task input,
    which is not blank. *)
Definition classified (st : App.State) : Prop :=
  App.taskType st = type (analyzeTask (App.taskInput st)) /\
  App.questions st = recommendedQuestions (analyzeTask (App.taskInput st)) /\
  trim (App.taskInput st) <> EmptyString.

Definition goodTemplate (t : Template.t) : Prop :=
  (exists r, Template.selectedStyles t = "直接" :: r) /\
  includes (Template.generatedPrompt t) toneLine = true.

(** The storage holds the collection of the state. *)
Definition stored (w : App.World) : Prop :=
  (App.bubble_templates w = None /\ App.templates (App.app w) = [])
  \/ App.bubble_templates w = Some (App.JSONOf (App.templates (App.app w))).

(** What every state of the page reached from [Page.fresh] satisfies. *)
Record Inv (s : Page.State) : Prop := mkInv {
  inv_wizard :
    App.step (App.app (Page.world s)) = App.wizard ->
    classified (App.app (Page.world s)) /\
    Wizard.currentIndex (Page.wizardState s)
    < length (App.questions (App.app (Page.world s)));
  inv_tagging :
    App.step (App.app (Page.world s)) = App.tagging ->
    classified (App.app (Page.world s));
  inv_styles :
    exists r, App.selectedStyles (App.app (Page.world s)) = "直接" :: r;
  inv_result :
    App.step (App.app (Page.world s)) = App.result ->
    includes (App.generatedPrompt (App.app (Page.world s))) toneLine = true;
  inv_templates :
    Forall goodTemplate (App.templates (App.app (Page.world s)));
  inv_storage : stored (Page.world s)
}.

(** The label that [build] prints for the key of an answer. *)
Definition label (key : string) : string :=
  if startsWith key "q_" then toUpperCase (substring 2 key) else key.

(** The three presets with the constraints they add and the format they
    set. *)
Definition presets
  : list ((PromptEngine.CoStarBuilder -> PromptEngine.CoStarBuilder)
          * (list string * string)) :=
  [ (PromptEngine.marketing,
     (["使用具有说服力的心理学技巧 (如 FOMO, 社会认同)。";
       "强调产品/服务带来的利益，而非仅仅列举功能。"],
      "文案格式 (标题 + 正文 + 行动号召)"));
    (PromptEngine.coding,
     (["遵循 Clean Code 代码规范。"; "为复杂的逻辑逻辑添加中文注释。"],
      "代码块 + Markdown 解释"));
    (PromptEngine.academic,
     (["使用严谨的学术语言。"; "如有引用，请注明来源。"],
      "学术论文结构 (摘要, 引言, 主体, 结论)")) ].

(** The first word of a text: what precedes its first space. *)
Definition firstWord (s : string) : string :=
  hd EmptyString (split " "%char s).

(** The steps that record, paired with their questions, as entries. *)
Definition recorded (questions : list Question) (steps : list Wizard.Step)
  : list (string * string) :=
  map (fun qs => (id (fst qs), Wizard.typed (snd qs)))
      (filter (fun qs => Props.records (snd qs)) (combine questions steps)).

(** The clock values of the saves that store a template. *)
Fixpoint storedTimes (ops : list App.TemplateOp) : list Z :=
  match ops with
  | [] => []
  | App.Save (Some name) now _ :: rest =>
      if truthy name then now :: storedTimes rest else storedTimes rest
  | _ :: rest => storedTimes rest
  end.

(** The events whose handlers write the template collection. *)
Definition writesCollection (e : Page.Event) : bool :=
  match e with
  | Page.ClickSave _ _ _ | Page.ClickDelete _ | Page.Reload => true
  | _ => false
  end.

Definition isSave (op : App.TemplateOp) : bool :=
  match op with
  | App.Save _ _ _ => true
  | App.Delete _ => false
  end.

End MoreProps.

(* ================================================================== *)
(** * The classifier *)

Import JS MockAI Props.

Lemma prefix_mapString (f : ascii -> ascii) (k s : string) :
  String.prefix k s = true -> String.prefix (mapString f k) (mapString f s) = true.
Proof.
  revert s; induction k as [|a k IH]; intros s H.
  - destruct s; reflexivity.
  - destruct s as [|b s]; simpl in *; [discriminate|].
    destruct (ascii_dec a b) as [->|]; [|discriminate].
    destruct (ascii_dec (f b) (f b)) as [_|n]; [auto | now elim n].
Qed.

Lemma includes_mapString (f : ascii -> ascii) (s k : string) :
  includes s k = true -> includes (mapString f s) (mapString f k) = true.
Proof.
  induction s as [|c s IH]; intros H; cbn [includes] in H.
  - rewrite orb_false_r in H. apply (prefix_mapString f) in H.
    cbn [includes mapString] in *. now rewrite H.
  - apply orb_true_iff in H as [H|H].
    + apply (prefix_mapString f) in H.
      cbn [includes mapString] in *. now rewrite H.
    + cbn [includes mapString]. rewrite (IH H). apply orb_true_r.
Qed.

(** A keyword in lower case that occurs in the input as it is written also
    occurs in the lowered input. *)
Lemma includes_toLowerCase (s k : string) :
  toLowerCase k = k -> includes s k = true -> includes (toLowerCase s) k = true.
Proof.
  intros Hk H. rewrite <- Hk. now apply includes_mapString.
Qed.

Lemma analyzeTask_coding (input : string) :
  mentions input codingKeywords = true ->
  analyzeTask input = analyzeTask "code".
Proof.
  unfold mentions, codingKeywords, analyzeTask; simpl existsb.
  set (l := toLowerCase input). rewrite orb_false_r, !orb_assoc.
  intros ->. reflexivity.
Qed.

Lemma analyzeTask_marketing (input : string) :
  mentions input codingKeywords = false ->
  mentions input marketingKeywords = true ->
  analyzeTask input = analyzeTask "copy".
Proof.
  unfold mentions, codingKeywords, marketingKeywords, analyzeTask; simpl existsb.
  set (l := toLowerCase input). rewrite !orb_false_r, !orb_assoc.
  intros -> ->. reflexivity.
Qed.

Lemma analyzeTask_general (input : string) :
  mentions input codingKeywords = false ->
  mentions input marketingKeywords = false ->
  analyzeTask input = analyzeTask EmptyString.
Proof.
  unfold mentions, codingKeywords, marketingKeywords, analyzeTask; simpl existsb.
  set (l := toLowerCase input). rewrite !orb_false_r, !orb_assoc.
  intros -> ->. reflexivity.
Qed.

Lemma mentions_intro (input k : string) (keywords : list string) :
  In k keywords -> includes (toLowerCase input) k = true -> mentions input keywords = true.
Proof.
  intros Hin Hk. apply existsb_exists. now exists k.
Qed.

(** C3. An input in which a keyword of the coding rule and a keyword of the
    marketing rule both occur (letter case ignored) is classified by the rule
    declared first, the coding rule, wherever and however often the keywords
    occur. *)
Theorem first_declared_rule_wins (input kc km : string) :
  In kc codingKeywords -> In km marketingKeywords ->
  includes (toLowerCase input) kc = true ->
  includes (toLowerCase input) km = true ->
  type (analyzeTask input) = "Coding" /\
  map id (recommendedQuestions (analyzeTask input)) = ["q_lang"; "q_func"; "q_lib"].
Proof.
  intros Hc _ Hkc _.
  rewrite (analyzeTask_coding input (mentions_intro input kc _ Hc Hkc)).
  split; reflexivity.
Qed.

Lemma first_declared_rule_wins_witness :
  In "代码" codingKeywords /\ In "文案" marketingKeywords /\
  includes (toLowerCase "帮我写代码文案") "代码" = true /\
  includes (toLowerCase "帮我写代码文案") "文案" = true /\
  type (analyzeTask "帮我写代码文案") = "Coding" /\
  map id (recommendedQuestions (analyzeTask "帮我写代码文案")) = ["q_lang"; "q_func"; "q_lib"].
Proof.
  assert (H1 : In "代码" codingKeywords) by (simpl; auto).
  assert (H2 : In "文案" marketingKeywords) by (simpl; auto).
  assert (H3 : includes (toLowerCase "帮我写代码文案") "代码" = true) by reflexivity.
  assert (H4 : includes (toLowerCase "帮我写代码文案") "文案" = true) by reflexivity.
  split; [exact H1|]. split; [exact H2|]. split; [exact H3|]. split; [exact H4|].
  exact (first_declared_rule_wins "帮我写代码文案" "代码" "文案" H1 H2 H3 H4).
Defined.

(** C7. [analyzeTask] is defined on every string and returns one of the three
    categories with three questions; an input that mentions no keyword, the
    empty string among them, gets the category General with the generic
    questions. *)
Theorem analyzeTask_total (input : string) :
  (type (analyzeTask input) = "Coding"
   \/ type (analyzeTask input) = "MarketingCopy"
   \/ type (analyzeTask input) = "General") /\
  length (recommendedQuestions (analyzeTask input)) = 3 /\
  recommendedQuestions (analyzeTask input) <> [] /\
  (mentions input codingKeywords = true
   \/ mentions input marketingKeywords = true
   \/ (type (analyzeTask input) = "General" /\
       map id (recommendedQuestions (analyzeTask input)) = ["q_detail"; "q_audience"; "q_format"] /\
       map text (recommendedQuestions (analyzeTask input)) = ["具体细节？"; "写给谁看？"; "输出格式？"])) /\
  type (analyzeTask EmptyString) = "General".
Proof.
  destruct (mentions input codingKeywords) eqn:Hc.
  - rewrite (analyzeTask_coding input Hc).
    repeat split; auto; discriminate.
  - destruct (mentions input marketingKeywords) eqn:Hm.
    + rewrite (analyzeTask_marketing input Hc Hm).
      repeat split; auto; discriminate.
    + rewrite (analyzeTask_general input Hc Hm).
      repeat split; auto; try discriminate; right; right; repeat split; reflexivity.
Qed.

(* ================================================================== *)
(** * Plain objects *)

Lemma truthy_true (s : string) : truthy s = true <-> s <> EmptyString.
Proof. destruct s; simpl; split; congruence. Qed.

Lemma truthy_false (s : string) : truthy s = false <-> s = EmptyString.
Proof. destruct s; simpl; split; congruence. Qed.

Lemma get_put (o : Obj) (k v k' : string) :
  get (put o k v) k' = if String.eqb k k' then Some v else get o k'.
Proof.
  induction o as [|[k0 v0] o IH]; simpl.
  - reflexivity.
  - destruct (String.eqb_spec k0 k) as [->|Hk0]; simpl.
    + destruct (String.eqb_spec k k'); reflexivity.
    + destruct (String.eqb_spec k0 k') as [->|Hk0'].
      * destruct (String.eqb_spec k k'); [congruence | reflexivity].
      * exact IH.
Qed.

Lemma get_set (o : Obj) (k v k' : string) :
  k <> "__proto__" ->
  get (set o k v) k' = if String.eqb k k' then Some v else get o k'.
Proof.
  intros Hk. unfold set.
  destruct (String.eqb_spec k "__proto__"); [contradiction | apply get_put].
Qed.

Lemma hasKey_set (o : Obj) (k v k' : string) :
  k <> "__proto__" ->
  hasKey (set o k v) k' <-> hasKey o k' \/ k = k'.
Proof.
  intros Hk. unfold hasKey. rewrite (get_set o k v k' Hk).
  destruct (String.eqb_spec k k'); split; intros H; auto; try discriminate.
  destruct H; [assumption | contradiction].
Qed.

(* ================================================================== *)
(** * The wizard *)

Section WizardFacts.
Import Wizard.

Variable questions : list Question.

(** Pressing skip never throws and leaves the answers as they are. *)
Lemma handleNext_skip (w : State) :
  exists w' done,
    handleNext questions true w = Returned (w', done) /\ answers w' = answers w.
Proof.
  unfold handleNext; simpl.
  destruct (_ <? _)%Z; eexists; eexists; split; reflexivity.
Qed.

(** Pressing next on a blank text is pressing skip. *)
Lemma handleNext_blank (w : State) :
  trim (currentAnswer w) = EmptyString ->
  handleNext questions false w = handleNext questions true w.
Proof.
  intros H. unfold handleNext. rewrite H. reflexivity.
Qed.

(** What one call does while the index points at a question. *)
Lemma handleNext_at (sk : bool) (w : State) (q : Question) :
  nth_error questions (currentIndex w) = Some q ->
  exists w' done,
    handleNext questions sk w = Returned (w', done) /\
    answers w' =
      (if negb sk && truthy (trim (currentAnswer w))
       then set (answers w) (id q) (currentAnswer w) else answers w) /\
    ((currentIndex w + 1 < length questions /\ done = None
      /\ currentIndex w' = currentIndex w + 1)
     \/ (currentIndex w + 1 = length questions /\ done = Some (answers w'))).
Proof.
  intros Hq.
  assert (Hlt : currentIndex w < length questions)
    by (apply nth_error_Some; congruence).
  unfold handleNext. rewrite Hq. unfold spread.
  destruct (negb sk && truthy (trim (currentAnswer w))); simpl;
    destruct (Z.ltb_spec (Z.of_nat (currentIndex w)) (Z.of_nat (length questions) - 1));
    eexists; eexists; (split; [reflexivity|]); (split; [reflexivity|]); simpl;
    solve [left; repeat split; lia | right; split; [lia | reflexivity]].
Qed.

Lemma trim_empty : trim EmptyString = EmptyString.
Proof. reflexivity. Qed.

Lemma nonEmptyValues_step (s : Step) (o : Obj) (q : Question) :
  id q <> "__proto__" ->
  nonEmptyValues o ->
  nonEmptyValues (if records s then set o (id q) (typed s) else o).
Proof.
  intros Hid Ho. unfold records.
  destruct (negb (skip s) && truthy (trim (typed s))) eqn:E; [|exact Ho].
  apply andb_true_iff in E as [_ E]. apply truthy_true in E.
  intros k v. rewrite (get_set o (id q) (typed s) k Hid).
  destruct (String.eqb (id q) k); [|apply Ho].
  intros [= <-] Hv. apply E. rewrite Hv. exact trim_empty.
Qed.

(** The run from any state whose index points at a question. *)
Lemma run_from (steps : list Step) :
  ordinaryIds questions ->
  forall w, currentIndex w < length questions ->
  exists w' done,
    run questions steps w = Returned (w', done) /\
    (forall k, hasKey (answers w') k <->
       hasKey (answers w) k \/
       exists j q s, nth_error steps j = Some s
                     /\ nth_error questions (currentIndex w + j) = Some q
                     /\ id q = k /\ records s = true) /\
    (nonEmptyValues (answers w) -> nonEmptyValues (answers w')) /\
    (forall a, done = Some a -> a = answers w').
Proof.
  intros Hids. induction steps as [|s rest IH]; intros w Hlt.
  - exists w, None. split; [reflexivity|]. split; [|split; [auto | discriminate]].
    intros k; split; [auto|].
    intros [H|(j & q & s & Hs & _)]; [assumption|].
    destruct j; discriminate.
  - destruct (nth_error questions (currentIndex w)) as [q|] eqn:Hq;
      [|apply nth_error_None in Hq; lia].
    assert (Hid : id q <> "__proto__").
    { apply nth_error_In in Hq. unfold ordinaryIds in Hids.
      rewrite Forall_forall in Hids. now apply Hids. }
    destruct (handleNext_at (skip s) (setCurrentAnswer (typed s) w) q Hq)
      as (w1 & d1 & Hrun & Hans & Hcase).
    simpl in Hans, Hcase. fold (records s) in Hans.
    assert (Hkeys : forall k, hasKey (answers w1) k <->
                              hasKey (answers w) k \/ (id q = k /\ records s = true)).
    { intros k. rewrite Hans. destruct (records s).
      - rewrite (hasKey_set _ _ _ _ Hid). intuition.
      - intuition discriminate. }
    assert (Hvals : nonEmptyValues (answers w) -> nonEmptyValues (answers w1)).
    { intros Hv. rewrite Hans. now apply nonEmptyValues_step. }
    cbn [run]. unfold step. rewrite Hrun.
    destruct Hcase as [(Hlt1 & -> & Hidx)|(Hlast & ->)].
    + destruct (IH w1) as (w' & done & Hr & Hk & Hv & Hd); [lia|].
      exists w', done. split; [exact Hr|]. split; [|split; [auto | exact Hd]].
      intros k. rewrite Hk, Hkeys, Hidx. split.
      * intros [[H|[H1 H2]]|(j & q' & s' & Hs & Hq' & Hi & Hrec)].
        -- now left.
        -- right. exists 0, q, s. rewrite Nat.add_0_r. auto.
        -- right. exists (S j), q', s'. simpl.
           replace (currentIndex w + S j) with (currentIndex w + 1 + j) by lia. auto.
      * intros [H|(j & q' & s' & Hs & Hq' & Hi & Hrec)]; [now left; left|].
        destruct j as [|j].
        -- simpl in Hs. injection Hs as <-. rewrite Nat.add_0_r, Hq in Hq'.
           injection Hq' as <-. left; right; auto.
        -- right. exists j, q', s'. simpl in Hs.
           replace (currentIndex w + 1 + j) with (currentIndex w + S j) by lia. auto.
    + exists w1, (Some (answers w1)). split; [reflexivity|].
      split; [|split; [exact Hvals | now intros a [= <-]]].
      intros k. rewrite Hkeys. split.
      * intros [H|[H1 H2]]; [now left|].
        right. exists 0, q, s. rewrite Nat.add_0_r. auto.
      * intros [H|(j & q' & s' & Hs & Hq' & Hi & Hrec)]; [now left|].
        destruct j as [|j].
        -- simpl in Hs. injection Hs as <-. rewrite Nat.add_0_r, Hq in Hq'.
           injection Hq' as <-. right; auto.
        -- assert (nth_error questions (currentIndex w + S j) = None)
             by (apply nth_error_None; lia).
           congruence.
Qed.

End WizardFacts.

(** A text of white space only is blank. *)
Lemma trim_whitespaceOnly (s : string) : whitespaceOnly s -> trim s = EmptyString.
Proof.
  intros (chars & Hall & Hs). unfold trim, trimL. rewrite Hs.
  assert (H : trimStartL (concat chars) = []).
  { clear Hs. induction Hall as [|c chars Hc _ IH]; [reflexivity|].
    cbn [concat]. unfold whiteSpace in Hc. cbn [map] in Hc.
    repeat (destruct Hc as [<-|Hc]; [exact IH|]). destruct Hc. }
  now rewrite H.
Qed.

(** The wizard on any non-empty list of questions with ordinary ids. *)
Lemma wizard_records_exactly (questions : list Question) (steps : list Wizard.Step) :
  questions <> [] ->
  ordinaryIds questions ->
  exists w' done,
    Wizard.run questions steps Wizard.initial = Returned (w', done) /\
    (forall k, hasKey (Wizard.answers w') k <->
       exists i q s, nth_error steps i = Some s
                     /\ nth_error questions i = Some q
                     /\ id q = k /\ records s = true) /\
    nonEmptyValues (Wizard.answers w') /\
    (forall a, done = Some a -> a = Wizard.answers w').
Proof.
  intros Hne Hids.
  assert (Hlt : Wizard.currentIndex Wizard.initial < length questions).
  { destruct questions; [contradiction | simpl; lia]. }
  destruct (run_from questions steps Hids Wizard.initial Hlt)
    as (w' & done & Hr & Hk & Hv & Hd).
  exists w', done. split; [exact Hr|]. split; [|split; [|exact Hd]].
  - intros k. rewrite Hk. simpl. split.
    + intros [H|H]; [now elim H | exact H].
    + intros H; right; exact H.
  - apply Hv. intros k v; discriminate.
Qed.

(** The questions of the classifier are never none, and their ids are
    ordinary property names. *)
Lemma analyzeTask_questions (input : string) :
  recommendedQuestions (analyzeTask input) <> []
  /\ ordinaryIds (recommendedQuestions (analyzeTask input)).
Proof.
  destruct (mentions input codingKeywords) eqn:Hc;
    [rewrite (analyzeTask_coding input Hc)|
     destruct (mentions input marketingKeywords) eqn:Hm;
     [rewrite (analyzeTask_marketing input Hc Hm)
     |rewrite (analyzeTask_general input Hc Hm)]];
    (split; [discriminate | repeat constructor; discriminate]).
Qed.

(** C6. In the clarify stage of any session, skipping a question adds no key
    to the answers, and pressing next on a text that is blank after trimming
    does what skipping does.  For every sequence of steps the wizard returns,
    and its answers have a key for exactly the ids of the questions whose
    step pressed next on a text that is not blank; no value is the empty
    string.  When the wizard completes it hands over these answers. *)
Theorem skip_and_blank_record_nothing (input : string) (steps : list Wizard.Step) :
  let questions := recommendedQuestions (analyzeTask input) in
  (forall w, exists w' done,
      Wizard.handleNext questions true w = Returned (w', done)
      /\ Wizard.answers w' = Wizard.answers w) /\
  (forall w, trim (Wizard.currentAnswer w) = EmptyString ->
      Wizard.handleNext questions false w = Wizard.handleNext questions true w) /\
  exists w' done,
    Wizard.run questions steps Wizard.initial = Returned (w', done) /\
    (forall k, hasKey (Wizard.answers w') k <->
       exists i q s, nth_error steps i = Some s
                     /\ nth_error questions i = Some q
                     /\ id q = k /\ records s = true) /\
    nonEmptyValues (Wizard.answers w') /\
    (forall a, done = Some a -> a = Wizard.answers w').
Proof.
  intros questions.
  split; [apply handleNext_skip|]. split; [apply handleNext_blank|].
  destruct (analyzeTask_questions input) as [Hne Hids].
  exact (wizard_records_exactly questions steps Hne Hids).
Qed.

Lemma skip_and_blank_record_nothing_witness :
  let questions := recommendedQuestions (analyzeTask "帮我写一段小红书文案") in
  let steps := [Wizard.answer "小红书"; Wizard.skipIt; Wizard.answer "   "] in
  trim "   " = EmptyString /\
  (forall w, exists w' done,
      Wizard.handleNext questions true w = Returned (w', done)
      /\ Wizard.answers w' = Wizard.answers w) /\
  (forall w, trim (Wizard.currentAnswer w) = EmptyString ->
      Wizard.handleNext questions false w = Wizard.handleNext questions true w) /\
  exists w' done,
    Wizard.run questions steps Wizard.initial = Returned (w', done) /\
    (forall k, hasKey (Wizard.answers w') k <->
       exists i q s, nth_error steps i = Some s
                     /\ nth_error questions i = Some q
                     /\ id q = k /\ records s = true) /\
    nonEmptyValues (Wizard.answers w') /\
    (forall a, done = Some a -> a = Wizard.answers w').
Proof.
  intros questions steps.
  split; [reflexivity|].
  exact (skip_and_blank_record_nothing "帮我写一段小红书文案" steps).
Defined.

(** Such a run, evaluated. *)
Example blank_answer_leaves_no_key :
  Wizard.run (recommendedQuestions (analyzeTask "帮我写一段小红书文案"))
    [Wizard.answer "小红书"; Wizard.skipIt; Wizard.answer "   "] Wizard.initial
  = Returned ({| Wizard.currentIndex := 2;
                 Wizard.answers := [("q_platform", "小红书")];
                 Wizard.currentAnswer := EmptyString |},
              Some [("q_platform", "小红书")]).
Proof. reflexivity. Qed.

(** One call of [handleNext] that records, on any list of questions. *)
Lemma handleNext_stores_typed
  (questions : list Question) (w : Wizard.State) (q : Question) :
  nth_error questions (Wizard.currentIndex w) = Some q ->
  id q <> "__proto__" ->
  trim (Wizard.currentAnswer w) <> EmptyString ->
  exists w' done,
    Wizard.handleNext questions false w = Returned (w', done) /\
    Wizard.answers w' = set (Wizard.answers w) (id q) (Wizard.currentAnswer w) /\
    get (Wizard.answers w') (id q) = Some (Wizard.currentAnswer w).
Proof.
  intros Hq Hid Hne.
  destruct (handleNext_at questions false w q Hq) as (w' & done & Hr & Hans & _).
  exists w', done. split; [exact Hr|].
  apply truthy_true in Hne. rewrite Hne in Hans. simpl in Hans.
  split; [exact Hans|].
  rewrite Hans, (get_set _ _ _ _ Hid), String.eqb_refl. reflexivity.
Qed.

(** C10. In the clarify stage of any session, when next is pressed on a text
    that is not blank after trimming, the value stored under the id of the
    current question is the text as typed, with its leading and trailing
    white space. *)
Theorem recorded_answer_is_verbatim
  (input : string) (w : Wizard.State) (q : Question) :
  nth_error (recommendedQuestions (analyzeTask input)) (Wizard.currentIndex w) = Some q ->
  trim (Wizard.currentAnswer w) <> EmptyString ->
  exists w' done,
    Wizard.handleNext (recommendedQuestions (analyzeTask input)) false w
    = Returned (w', done) /\
    Wizard.answers w' = set (Wizard.answers w) (id q) (Wizard.currentAnswer w) /\
    get (Wizard.answers w') (id q) = Some (Wizard.currentAnswer w).
Proof.
  intros Hq Hne.
  destruct (analyzeTask_questions input) as [_ Hids].
  apply handleNext_stores_typed; [exact Hq | | exact Hne].
  unfold ordinaryIds in Hids. rewrite Forall_forall in Hids.
  apply Hids. exact (nth_error_In _ _ Hq).
Qed.

Lemma recorded_answer_is_verbatim_witness :
  let input := "帮我写一段小红书文案" in
  let w := Wizard.setCurrentAnswer "  小红书 " Wizard.initial in
  let q := {| id := "q_platform"; text := "发布平台？"; subText := "例如: 小红书, 朋友圈, 抖音" |} in
  nth_error (recommendedQuestions (analyzeTask input)) (Wizard.currentIndex w) = Some q /\
  trim (Wizard.currentAnswer w) <> EmptyString /\
  exists w' done,
    Wizard.handleNext (recommendedQuestions (analyzeTask input)) false w
    = Returned (w', done) /\
    Wizard.answers w' = set (Wizard.answers w) (id q) (Wizard.currentAnswer w) /\
    get (Wizard.answers w') (id q) = Some (Wizard.currentAnswer w).
Proof.
  intros input w q.
  assert (H1 : nth_error (recommendedQuestions (analyzeTask input)) (Wizard.currentIndex w)
               = Some q) by reflexivity.
  assert (H2 : trim (Wizard.currentAnswer w) <> EmptyString) by discriminate.
  split; [exact H1|]. split; [exact H2|].
  exact (recorded_answer_is_verbatim input w q H1 H2).
Defined.

(** The stored text differs from its trimmed form in the example above. *)
Example stored_text_keeps_white_space :
  Wizard.handleNext (recommendedQuestions (analyzeTask "帮我写一段小红书文案")) false
    (Wizard.setCurrentAnswer "  小红书 " Wizard.initial)
  = Returned ({| Wizard.currentIndex := 1;
                 Wizard.answers := [("q_platform", "  小红书 ")];
                 Wizard.currentAnswer := EmptyString |}, None)
  /\ trim "  小红书 " = "小红书".
Proof. split; reflexivity. Qed.

(* ================================================================== *)
(** * The builder *)

Lemma append_assoc (a b c : string) : (a ++ b) ++ c = a ++ (b ++ c).
Proof. induction a as [|x a IH]; simpl; [reflexivity | now rewrite IH]. Qed.

Lemma list_ascii_of_string_app (a b : string) :
  list_ascii_of_string (a ++ b)
  = (list_ascii_of_string a ++ list_ascii_of_string b)%list.
Proof. induction a as [|x a IH]; simpl; [reflexivity | now rewrite IH]. Qed.

Lemma trimStartL_keep (c : ascii) (l : list ascii) :
  ws1 c = false ->
  (forall c2, ws2 c c2 = false) ->
  (forall c2 c3, ws3 c c2 c3 = false) ->
  trimStartL (c :: l) = c :: l.
Proof.
  intros H1 H2 H3. cbn [trimStartL]. rewrite H1.
  destruct l as [|c2 [|c3 l]]; [reflexivity | now rewrite H2 | now rewrite H2, H3].
Qed.

Lemma trimStartR_keep (c : ascii) (l : list ascii) :
  ws1 c = false ->
  (forall c2, ws2 c2 c = false) ->
  (forall c2 c3, ws3 c3 c2 c = false) ->
  trimStartR (c :: l) = c :: l.
Proof.
  intros H1 H2 H3. cbn [trimStartR]. rewrite H1.
  destruct l as [|c2 [|c3 l]]; [reflexivity | now rewrite H2 | now rewrite H2, H3].
Qed.

Lemma trimStartR_ws1 (c : ascii) (l : list ascii) :
  ws1 c = true -> trimStartR (c :: l) = trimStartR l.
Proof. intros H. cbn [trimStartR]. now rewrite H. Qed.

(** Trimming a text framed by two line feeds, when the text begins and ends
    with bytes that belong to no white space. *)
Lemma trim_framed (core : string) (c e : ascii) (t : string) (r : list ascii) :
  core = String c t ->
  rev (list_ascii_of_string core) = e :: r ->
  ws1 c = false -> (forall c2, ws2 c c2 = false) -> (forall c2 c3, ws3 c c2 c3 = false) ->
  ws1 e = false -> (forall c2, ws2 c2 e = false) -> (forall c2 c3, ws3 c3 c2 e = false) ->
  trim (nl ++ core ++ nl) = core.
Proof.
  intros Hc Hr S1 S2 S3 E1 E2 E3. unfold trim, trimL.
  rewrite !list_ascii_of_string_app. change (list_ascii_of_string nl) with [ascii_of_nat 10].
  cbn [app]. cbn [trimStartL].
  change (ws1 (ascii_of_nat 10)) with true. cbv iota.
  assert (Hl : list_ascii_of_string core = c :: list_ascii_of_string t)
    by (rewrite Hc; reflexivity).
  rewrite Hl. cbn [app]. rewrite (trimStartL_keep c _ S1 S2 S3).
  change (c :: (list_ascii_of_string t ++ [ascii_of_nat 10])%list)
    with ((c :: list_ascii_of_string t) ++ [ascii_of_nat 10])%list.
  rewrite <- Hl, rev_app_distr, Hr. cbn [rev app].
  rewrite (trimStartR_ws1 (ascii_of_nat 10) (e :: r) eq_refl).
  rewrite (trimStartR_keep e r E1 E2 E3), <- Hr, rev_involutive.
  apply string_of_list_ascii_of_string.
Qed.

(** [build] returns the sections of the template in their order, without the
    line feeds that frame the template literal. *)
Lemma build_sections (b : PromptEngine.CoStarBuilder) :
  PromptEngine.build b =
  PromptEngine.roleSection b ++ nl ++
  PromptEngine.coStarSection b ++ nl ++
  PromptEngine.inputsSection b ++ nl ++
  PromptEngine.chainSection b ++ nl ++
  PromptEngine.constraintsSection b ++ nl ++
  PromptEngine.footer.
Proof.
  unfold PromptEngine.build, PromptEngine.template.
  set (core := PromptEngine.roleSection b ++ nl ++ PromptEngine.coStarSection b ++ nl ++
               PromptEngine.inputsSection b ++ nl ++ PromptEngine.chainSection b ++ nl ++
               PromptEngine.constraintsSection b ++ nl ++ PromptEngine.footer).
  set (upper := PromptEngine.roleSection b ++ nl ++ PromptEngine.coStarSection b ++ nl ++
                PromptEngine.inputsSection b ++ nl ++ PromptEngine.chainSection b ++ nl ++
                PromptEngine.constraintsSection b ++ nl).
  assert (Hcore : core = upper ++ PromptEngine.footer)
    by (unfold core, upper; now rewrite !append_assoc).
  assert (Hframe : nl ++ PromptEngine.roleSection b ++ nl ++ PromptEngine.coStarSection b ++ nl ++
                   PromptEngine.inputsSection b ++ nl ++ PromptEngine.chainSection b ++ nl ++
                   PromptEngine.constraintsSection b ++ nl ++ PromptEngine.footer ++ nl
                   = nl ++ core ++ nl)
    by (unfold core; now rewrite !append_assoc).
  rewrite Hframe.
  eapply (trim_framed core "#"%char (ascii_of_nat 141)).
  - unfold core, PromptEngine.roleSection. cbn [append]. reflexivity.
  - rewrite Hcore, list_ascii_of_string_app, rev_app_distr. cbn. reflexivity.
  - reflexivity.
  - intros; reflexivity.
  - intros; reflexivity.
  - reflexivity.
  - intros c2. unfold ws2. cbn. apply andb_false_r.
  - intros c2 c3. unfold ws3. cbn. now rewrite !andb_false_r.
Qed.

Lemma addConstraints_fields (cs : list string) (b : PromptEngine.CoStarBuilder) :
  addConstraints cs b =
  {| PromptEngine.context := PromptEngine.context b;
     PromptEngine.objective := PromptEngine.objective b;
     PromptEngine.style := PromptEngine.style b;
     PromptEngine.tone := PromptEngine.tone b;
     PromptEngine.audience := PromptEngine.audience b;
     PromptEngine.responseFormat := PromptEngine.responseFormat b;
     PromptEngine.constraints := (PromptEngine.constraints b ++ cs)%list;
     PromptEngine.userInputs := PromptEngine.userInputs b |}.
Proof.
  revert b; induction cs as [|c cs IH]; intros b.
  - destruct b; simpl. now rewrite app_nil_r.
  - unfold addConstraints in *. cbn [fold_left]. rewrite IH. simpl.
    now rewrite <- app_assoc.
Qed.

Lemma join_dash_truthy (l : list string) :
  l <> [] -> truthy (join nl (map (fun c => "- " ++ c) l)) = true.
Proof.
  destruct l as [|x [|y l]]; [contradiction | reflexivity | reflexivity].
Qed.

(** The constraints section of a builder that has a constraint. *)
Lemma constraintsSection_listed (b : PromptEngine.CoStarBuilder) :
  PromptEngine.constraints b <> [] ->
  PromptEngine.constraintsSection b =
  "# ⛔ 限制条件与质量控制" ++ nl ++
  join nl (map (fun c => "- " ++ c) (PromptEngine.constraints b)) ++ nl ++
  "- 严禁捏造事实 (No Hallucination)。" ++ nl ++
  "- 确保输出内容可直接用于生产环境。" ++ nl ++
  "- 保持 " ++ orElseU (nth_error (PromptEngine.style b) 0) "专业" ++ " 的语调。" ++ nl.
Proof.
  intros H. unfold PromptEngine.constraintsSection, orElse.
  now rewrite (join_dash_truthy _ H).
Qed.

(** A preset seen as what it does: two constraints appended and the response
    format overwritten. *)
Lemma rendered_after_preset (c1 c2 fmt : string)
  (b0 : PromptEngine.CoStarBuilder) (before after : list string) :
  let b := addConstraints after
             (PromptEngine.setResponseFormat fmt
                (PromptEngine.addConstraint c2
                   (PromptEngine.addConstraint c1 (addConstraints before b0)))) in
  PromptEngine.constraints b
  = (PromptEngine.constraints b0 ++ before ++ [c1; c2] ++ after)%list /\
  PromptEngine.build b =
  PromptEngine.roleSection b ++ nl ++
  PromptEngine.coStarSection b ++ nl ++
  PromptEngine.inputsSection b ++ nl ++
  PromptEngine.chainSection b ++ nl ++
  "# ⛔ 限制条件与质量控制" ++ nl ++
  join nl (map (fun c => "- " ++ c)
             (PromptEngine.constraints b0 ++ before ++ [c1; c2] ++ after)%list) ++ nl ++
  "- 严禁捏造事实 (No Hallucination)。" ++ nl ++
  "- 确保输出内容可直接用于生产环境。" ++ nl ++
  "- 保持 " ++ orElseU (nth_error (PromptEngine.style b0) 0) "专业" ++ " 的语调。" ++ nl ++
  nl ++
  "# 👇 请在下方生成回复".
Proof.
  intros b.
  assert (Hc : PromptEngine.constraints b
               = (PromptEngine.constraints b0 ++ before ++ [c1; c2] ++ after)%list).
  { unfold b. rewrite addConstraints_fields. cbn.
    rewrite addConstraints_fields. cbn. now rewrite <- !app_assoc. }
  assert (Hs : PromptEngine.style b = PromptEngine.style b0).
  { unfold b. rewrite addConstraints_fields. cbn.
    rewrite addConstraints_fields. reflexivity. }
  split; [exact Hc|].
  rewrite build_sections, constraintsSection_listed.
  - rewrite Hc, Hs. unfold PromptEngine.footer. now rewrite !append_assoc.
  - rewrite Hc. intros H. apply app_eq_nil in H as [_ H].
    apply app_eq_nil in H as [_ H]. discriminate.
Qed.

(** C5. Around a preset, whatever constraints were added before it and after
    it: the constraints of the builder are the earlier ones, then the two of
    the preset, then the later ones, and the prompt that [build] returns ends
    with the constraints section listing each of them once per occurrence, in
    that order, followed by the three fixed constraints and the closing
    line. *)
Theorem preset_keeps_every_constraint
  (b0 : PromptEngine.CoStarBuilder) (before after : list string) :
  let rendered (preset : PromptEngine.CoStarBuilder -> PromptEngine.CoStarBuilder)
               (added : list string) :=
    let b := addConstraints after (preset (addConstraints before b0)) in
    PromptEngine.constraints b
    = (PromptEngine.constraints b0 ++ before ++ added ++ after)%list /\
    PromptEngine.build b =
    PromptEngine.roleSection b ++ nl ++
    PromptEngine.coStarSection b ++ nl ++
    PromptEngine.inputsSection b ++ nl ++
    PromptEngine.chainSection b ++ nl ++
    "# ⛔ 限制条件与质量控制" ++ nl ++
    join nl (map (fun c => "- " ++ c)
               (PromptEngine.constraints b0 ++ before ++ added ++ after)%list) ++ nl ++
    "- 严禁捏造事实 (No Hallucination)。" ++ nl ++
    "- 确保输出内容可直接用于生产环境。" ++ nl ++
    "- 保持 " ++ orElseU (nth_error (PromptEngine.style b0) 0) "专业" ++ " 的语调。" ++ nl ++
    nl ++
    "# 👇 请在下方生成回复" in
  rendered PromptEngine.marketing
    ["使用具有说服力的心理学技巧 (如 FOMO, 社会认同)。";
     "强调产品/服务带来的利益，而非仅仅列举功能。"] /\
  rendered PromptEngine.coding
    ["遵循 Clean Code 代码规范。"; "为复杂的逻辑逻辑添加中文注释。"] /\
  rendered PromptEngine.academic
    ["使用严谨的学术语言。"; "如有引用，请注明来源。"].
Proof.
  intros rendered. unfold rendered.
  unfold PromptEngine.marketing, PromptEngine.coding, PromptEngine.academic.
  split; [|split]; apply rendered_after_preset.
Qed.

(** A constraint added before the preset that the preset adds again is listed
    twice. *)
Example duplicate_constraint_listed_twice :
  let c := "遵循 Clean Code 代码规范。" in
  includes
    (PromptEngine.build (PromptEngine.coding (PromptEngine.addConstraint c PromptEngine.new)))
    ("- " ++ c ++ nl ++ "- " ++ c ++ nl ++ "- 为复杂的逻辑逻辑添加中文注释。" ++ nl
     ++ "- 严禁捏造事实 (No Hallucination)。") = true.
Proof. vm_compute. reflexivity. Qed.

(* ================================================================== *)
(** * A session from the input to the prompt *)

(** C4. The input 帮我写一段小红书文案 is classified as MarketingCopy with the
    questions on platform, audience and goal.  Answering the first with 小红书,
    skipping the other two and generating with the style 直接 alone gives a
    prompt that contains the two constraints of the marketing preset, and
    whose response-format line carries the format of the marketing preset,
    not one of the default formats. *)
Theorem xiaohongshu_scenario :
  let st1 := App.handleSubmit "帮我写一段小红书文案" App.initial in
  App.step st1 = App.wizard /\
  App.taskType st1 = "MarketingCopy" /\
  map id (App.questions st1) = ["q_platform"; "q_audience"; "q_goal"] /\
  exists w collected,
    Wizard.run (App.questions st1)
      [Wizard.answer "小红书"; Wizard.skipIt; Wizard.skipIt] Wizard.initial
    = Returned (w, Some collected) /\
    collected = [("q_platform", "小红书")] /\
    let st2 := App.handleWizardComplete collected st1 in
    App.step st2 = App.tagging /\
    App.selectedStyles st2 = ["直接"] /\
    PromptEngine.responseFormat (App.configuredBuilder st2)
    = "文案格式 (标题 + 正文 + 行动号召)" /\
    let st3 := App.handleGenerate st2 in
    let p := App.generatedPrompt st3 in
    App.step st3 = App.result /\
    includes p "使用具有说服力的心理学技巧 (如 FOMO, 社会认同)。" = true /\
    includes p "强调产品/服务带来的利益，而非仅仅列举功能。" = true /\
    filter (fun l => startsWith l "**格式 (Response)**") (lines p)
    = ["**格式 (Response)**: " ++ "文案格式 (标题 + 正文 + 行动号召)"] /\
    includes p "Markdown 结构化格式" = false /\
    includes p "结构化 Markdown" = false.
Proof.
  intros st1.
  split; [reflexivity|]. split; [reflexivity|]. split; [reflexivity|].
  eexists; eexists. split; [reflexivity|]. split; [reflexivity|].
  cbv zeta.
  split; [reflexivity|]. split; [reflexivity|]. split; [reflexivity|].
  split; [reflexivity|].
  repeat split; vm_compute; reflexivity.
Qed.

(* ================================================================== *)
(** * Templates: saving, loading, deleting *)

Lemma handleSaveTemplate_named (name : string) (now : Z) (iso : string) (w : App.World) :
  name <> EmptyString ->
  App.handleSaveTemplate (Some name) now iso w =
  let st := App.app w in
  let newTpl :=
    {| Template.id := now; Template.name := name; Template.date := iso;
       Template.taskInput := App.taskInput st;
       Template.taskType := App.taskType st;
       Template.answers := App.answers st;
       Template.selectedStyles := App.selectedStyles st;
       Template.selectedIndustries := App.selectedIndustries st;
       Template.generatedPrompt := App.generatedPrompt st;
       Template.tags := (App.selectedStyles st ++ App.selectedIndustries st)%list |} in
  {| App.app := App.setIsSidebarOpen true (App.setTemplates (newTpl :: App.templates st) st);
     App.bubble_templates := Some (App.JSONOf (newTpl :: App.templates st)) |}.
Proof.
  intros H. apply truthy_true in H. unfold App.handleSaveTemplate. now rewrite H.
Qed.

(** C8. A save puts a template in front of the collection and writes the
    collection to the storage, from which a later start of the application
    reads it back.  Loading that template into any active session gives the
    session the task input, answers, styles, industries and prompt of the
    moment of the save, and shows the result; the category and the questions
    stay those of the active session. *)
Theorem save_then_load_restores
  (w : App.World) (name : string) (now : Z) (iso : string) (active : App.State) :
  name <> EmptyString ->
  exists tpl,
    let saved := App.handleSaveTemplate (Some name) now iso w in
    App.templates (App.app saved) = tpl :: App.templates (App.app w) /\
    App.loadTemplates {| App.app := App.initial;
                         App.bubble_templates := App.bubble_templates saved |}
    = Returned {| App.app := App.setTemplates (App.templates (App.app saved)) App.initial;
                  App.bubble_templates := App.bubble_templates saved |} /\
    let loaded := App.handleLoadTemplate tpl active in
    App.taskInput loaded = App.taskInput (App.app w) /\
    App.answers loaded = App.answers (App.app w) /\
    App.selectedStyles loaded = App.selectedStyles (App.app w) /\
    App.selectedIndustries loaded = App.selectedIndustries (App.app w) /\
    App.generatedPrompt loaded = App.generatedPrompt (App.app w) /\
    App.step loaded = App.result /\
    App.taskType loaded = App.taskType active /\
    App.questions loaded = App.questions active.
Proof.
  intros Hname. rewrite (handleSaveTemplate_named name now iso w Hname).
  eexists. cbv zeta. split; [reflexivity|]. split; [reflexivity|].
  repeat split.
Qed.

Lemma save_then_load_restores_witness :
  let w := {| App.app := finishedSession; App.bubble_templates := None |} in
  let active := App.handleSubmit "写一个python脚本" (App.onRestart finishedSession) in
  "小红书" <> EmptyString /\
  exists tpl,
    let saved := App.handleSaveTemplate (Some "小红书") 1770192000000
                   "2026-02-04T08:00:00.000Z" w in
    App.templates (App.app saved) = tpl :: App.templates (App.app w) /\
    App.loadTemplates {| App.app := App.initial;
                         App.bubble_templates := App.bubble_templates saved |}
    = Returned {| App.app := App.setTemplates (App.templates (App.app saved)) App.initial;
                  App.bubble_templates := App.bubble_templates saved |} /\
    let loaded := App.handleLoadTemplate tpl active in
    App.taskInput loaded = App.taskInput (App.app w) /\
    App.answers loaded = App.answers (App.app w) /\
    App.selectedStyles loaded = App.selectedStyles (App.app w) /\
    App.selectedIndustries loaded = App.selectedIndustries (App.app w) /\
    App.generatedPrompt loaded = App.generatedPrompt (App.app w) /\
    App.step loaded = App.result /\
    App.taskType loaded = App.taskType active /\
    App.questions loaded = App.questions active.
Proof.
  intros w active.
  assert (H : "小红书" <> EmptyString) by discriminate.
  split; [exact H|].
  exact (save_then_load_restores w "小红书" 1770192000000 "2026-02-04T08:00:00.000Z" active H).
Defined.

(** After a marketing template is loaded into a coding session, the session
    shows the marketing prompt while its category is still Coding. *)
Example loaded_session_keeps_its_category :
  let w := {| App.app := finishedSession; App.bubble_templates := None |} in
  let active := App.handleSubmit "写一个python脚本" (App.onRestart finishedSession) in
  let saved := App.handleSaveTemplate (Some "小红书") 1770192000000
                 "2026-02-04T08:00:00.000Z" w in
  match App.templates (App.app saved) with
  | tpl :: _ =>
      Template.taskType tpl = "MarketingCopy" /\
      App.taskType (App.handleLoadTemplate tpl active) = "Coding" /\
      map id (App.questions (App.handleLoadTemplate tpl active)) = ["q_lang"; "q_func"; "q_lib"] /\
      App.generatedPrompt (App.handleLoadTemplate tpl active) = App.generatedPrompt finishedSession
  | [] => False
  end.
Proof. vm_compute. repeat split. Qed.

(** A save that the user cancels, or names with the empty string, changes
    nothing. *)
Lemma handleSaveTemplate_unnamed (now : Z) (iso : string) (w : App.World) :
  App.handleSaveTemplate None now iso w = w
  /\ App.handleSaveTemplate (Some EmptyString) now iso w = w.
Proof. split; reflexivity. Qed.

Lemma ids_save (name : string) (now : Z) (iso : string) (w : App.World) :
  truthy name = true ->
  App.ids (App.handleSaveTemplate (Some name) now iso w) = now :: App.ids w.
Proof.
  intros H. unfold App.handleSaveTemplate. rewrite H. reflexivity.
Qed.

Lemma ids_delete (id : Z) (w : App.World) :
  App.ids (App.handleDeleteTemplate id w)
  = filter (fun i => negb (Z.eqb i id)) (App.ids w).
Proof.
  unfold App.ids, App.handleDeleteTemplate; simpl.
  induction (App.templates (App.app w)) as [|t ts IH]; simpl; [reflexivity|].
  destruct (Z.eqb (Template.id t) id); simpl; now rewrite IH.
Qed.

(** In a list without duplicates, filtering one member out removes one
    element. *)
Lemma filter_out_one (x : Z) (l : list Z) :
  NoDup l -> In x l ->
  length (filter (fun i => negb (Z.eqb i x)) l) + 1 = length l.
Proof.
  induction 1 as [|y l Hy Hnd IH]; simpl; [contradiction|].
  intros [->|Hin].
  - rewrite Z.eqb_refl. simpl.
    assert (Hall : filter (fun i => negb (Z.eqb i x)) l = l).
    { clear IH Hnd. induction l as [|z l IHl]; simpl; [reflexivity|].
      destruct (Z.eqb_spec z x) as [->|_]; simpl.
      - elim Hy. now left.
      - f_equal. apply IHl. intros H. apply Hy. now right. }
    rewrite Hall. lia.
  - destruct (Z.eqb_spec y x) as [->|_]; [contradiction|]. simpl.
    rewrite <- (IH Hin). lia.
Qed.

Lemma applyOp_ids (op : App.TemplateOp) (w : App.World) :
  NoDup (App.ids w) -> App.clockFresh [op] w = true ->
  NoDup (App.ids (App.applyOp w op)) /\
  (forall i, In i (App.ids (App.applyOp w op)) ->
     In i (App.ids w) \/ exists name iso, op = App.Save (Some name) i iso).
Proof.
  intros Hnd Hf.
  destruct op as [[name|] now iso|id]; cbn [App.applyOp App.clockFresh] in *.
  - destruct (truthy name) eqn:Hn.
    + rewrite (ids_save name now iso w Hn). rewrite andb_true_r in Hf.
      apply negb_true_iff in Hf. split.
      * constructor; [|exact Hnd]. intros Hin.
        assert (existsb (Z.eqb now) (App.ids w) = true); [|congruence].
        apply existsb_exists. exists now. split; [exact Hin | apply Z.eqb_refl].
      * intros i [<-|Hi]; [right; eauto | now left].
    + unfold App.handleSaveTemplate. rewrite Hn. simpl. auto.
  - auto.
  - rewrite ids_delete. split; [now apply NoDup_filter|].
    intros i Hi. apply filter_In in Hi as [Hi _]. now left.
Qed.

(** C9, as the code has it. The id of a template is the clock value read by
    its save.  From a collection with distinct ids, after any sequence of
    saves and deletes in which every storing save reads a clock value that is
    not an id of the collection at that moment, the ids are still distinct,
    every id is an earlier one or the clock value of a save of the sequence,
    and a delete by an id of the collection removes exactly one template. *)
Theorem fresh_clock_distinct_ids (ops : list App.TemplateOp) (w : App.World) :
  NoDup (App.ids w) ->
  App.clockFresh ops w = true ->
  NoDup (App.ids (App.applyOps ops w)) /\
  (forall i, In i (App.ids (App.applyOps ops w)) ->
     In i (App.ids w) \/ exists name iso, In (App.Save (Some name) i iso) ops) /\
  (forall i, In i (App.ids (App.applyOps ops w)) ->
     length (App.templates (App.app (App.handleDeleteTemplate i (App.applyOps ops w)))) + 1
     = length (App.templates (App.app (App.applyOps ops w)))).
Proof.
  revert w. induction ops as [|op ops IH]; intros w Hnd Hf.
  - unfold App.applyOps; cbn [fold_left]. split; [exact Hnd|]. split; [auto|].
    intros i Hi.
    pose proof (ids_delete i w) as Hd. unfold App.ids in Hd, Hi, Hnd.
    rewrite <- (length_map Template.id), Hd, <- (length_map Template.id (App.templates (App.app w))).
    now apply filter_out_one.
  - cbn [App.clockFresh] in Hf. apply andb_true_iff in Hf as [Hop Hrest].
    assert (Hf1 : App.clockFresh [op] w = true).
    { cbn [App.clockFresh]. now rewrite Hop. }
    destruct (applyOp_ids op w Hnd Hf1) as [Hnd1 Hfrom1].
    destruct (IH (App.applyOp w op) Hnd1 Hrest) as (Hnd2 & Hfrom2 & Hdel).
    unfold App.applyOps in *. cbn [fold_left].
    split; [exact Hnd2|]. split; [|exact Hdel].
    intros i Hi. destruct (Hfrom2 i Hi) as [Hin|(name & iso & Hin)].
    + destruct (Hfrom1 i Hin) as [H|(name & iso & ->)]; [now left|].
      right. exists name, iso. now left.
    + right. exists name, iso. now right.
Qed.

(** A clock that advances from save to save, above the ids of the
    collection, gives every save a fresh value. *)
Lemma clockAdvances_fresh (ops : list App.TemplateOp) (last : Z) (w : App.World) :
  (forall i, In i (App.ids w) -> (i <= last)%Z) ->
  clockAdvances last ops = true ->
  App.clockFresh ops w = true.
Proof.
  revert last w. induction ops as [|op ops IH]; intros last w Hb Ha; [reflexivity|].
  destruct op as [name now iso|id]; cbn [clockAdvances App.clockFresh] in *.
  - apply andb_true_iff in Ha as [Hlt Ha]. apply Z.ltb_lt in Hlt.
    apply andb_true_iff. split.
    + destruct name as [name|]; [|reflexivity].
      destruct (truthy name); [|reflexivity].
      apply negb_true_iff. destruct (existsb (Z.eqb now) (App.ids w)) eqn:E; [|reflexivity].
      apply existsb_exists in E as (i & Hi & Heq). apply Z.eqb_eq in Heq. subst i.
      specialize (Hb now Hi). lia.
    + apply (IH now); [|exact Ha].
      intros i Hi. cbn [App.applyOp] in Hi.
      destruct name as [name|]; [destruct (truthy name) eqn:Hn|].
      * rewrite (ids_save name now iso w Hn) in Hi.
        destruct Hi as [<-|Hi]; [lia | specialize (Hb i Hi); lia].
      * unfold App.handleSaveTemplate in Hi. rewrite Hn in Hi. simpl in Hi.
        specialize (Hb i Hi); lia.
      * specialize (Hb i Hi); lia.
  - rewrite andb_true_l. apply (IH last); [|exact Ha].
    intros i Hi. cbn [App.applyOp] in Hi. rewrite ids_delete in Hi.
    apply filter_In in Hi as [Hi _]. now apply Hb.
Qed.

Lemma fresh_clock_distinct_ids_witness :
  let w := {| App.app := finishedSession; App.bubble_templates := None |} in
  let ops := [App.Save (Some "小红书") 1770192000000 "2026-02-04T08:00:00.000Z";
              App.Save None 1770192000000 "2026-02-04T08:00:00.000Z";
              App.Save (Some "小红书") 1770192060000 "2026-02-04T08:01:00.000Z";
              App.Delete 1770192000000] in
  NoDup (App.ids w) /\
  App.clockFresh ops w = true /\
  NoDup (App.ids (App.applyOps ops w)) /\
  (forall i, In i (App.ids (App.applyOps ops w)) ->
     In i (App.ids w) \/ exists name iso, In (App.Save (Some name) i iso) ops) /\
  (forall i, In i (App.ids (App.applyOps ops w)) ->
     length (App.templates (App.app (App.handleDeleteTemplate i (App.applyOps ops w)))) + 1
     = length (App.templates (App.app (App.applyOps ops w)))).
Proof.
  intros w ops.
  assert (H1 : NoDup (App.ids w)) by constructor.
  assert (H2 : App.clockFresh ops w = true) by reflexivity.
  split; [exact H1|]. split; [exact H2|].
  exact (fresh_clock_distinct_ids ops w H1 H2).
Defined.

(** Two saves that read the same clock value store two templates with one id,
    and the delete by that id removes both. *)
Lemma same_clock_value_same_id :
  let w0 := {| App.app := finishedSession; App.bubble_templates := None |} in
  let w := App.applyOps
             [App.Save (Some "小红书") 1770192000000 "2026-02-04T08:00:00.000Z";
              App.Save (Some "文案") 1770192000000 "2026-02-04T08:00:00.000Z"] w0 in
  App.ids w = [1770192000000%Z; 1770192000000%Z] /\
  ~ NoDup (App.ids w) /\
  length (App.templates (App.app w)) = 2 /\
  length (App.templates (App.app (App.handleDeleteTemplate 1770192000000 w))) = 0.
Proof.
  intros w0 w.
  assert (Hids : App.ids w = [1770192000000%Z; 1770192000000%Z]) by reflexivity.
  split; [exact Hids|]. split; [|split; reflexivity].
  rewrite Hids. intros H. inversion H as [|x l Hx _]. apply Hx. now left.
Qed.

(* ================================================================== *)
(** * Loading the stored templates *)

(** With a stored text that is not JSON the effect throws: it returns no
    state, with an empty collection or otherwise. *)
Lemma load_failure_propagates :
  let w := {| App.app := App.initial; App.bubble_templates := Some (App.NotJSON "[{") |} in
  App.loadTemplates w = Threw SyntaxError /\
  ~ (exists w', App.loadTemplates w = Returned w' /\ App.templates (App.app w') = []).
Proof.
  intros w. split; [reflexivity|].
  intros (w' & H & _). discriminate H.
Qed.

(** C2, as the code has it. With no stored text, or the empty text, the load
    returns and leaves the state as it is, so a fresh application keeps its
    empty collection.  With the text that a save or a delete wrote, the load
    returns with that collection.  With any other non-empty text the
    [SyntaxError] of [JSON.parse] leaves the effect: the load returns no
    state. *)
Theorem loadTemplates_outcomes (w : App.World) :
  (App.bubble_templates w = None \/ App.bubble_templates w = Some (App.NotJSON EmptyString) ->
   App.loadTemplates w = Returned w /\
   (App.app w = App.initial -> App.templates (App.app w) = [])) /\
  (forall ts, App.bubble_templates w = Some (App.JSONOf ts) ->
   App.loadTemplates w
   = Returned {| App.app := App.setTemplates ts (App.app w);
                 App.bubble_templates := Some (App.JSONOf ts) |}) /\
  (forall name now iso, name <> EmptyString ->
   App.loadTemplates
     {| App.app := App.initial;
        App.bubble_templates := App.bubble_templates (App.handleSaveTemplate (Some name) now iso w) |}
   = Returned
       {| App.app := App.setTemplates
                       (App.templates (App.app (App.handleSaveTemplate (Some name) now iso w)))
                       App.initial;
          App.bubble_templates :=
            App.bubble_templates (App.handleSaveTemplate (Some name) now iso w) |}) /\
  (forall s, s <> EmptyString -> App.bubble_templates w = Some (App.NotJSON s) ->
   App.loadTemplates w = Threw SyntaxError /\
   forall w', App.loadTemplates w <> Returned w').
Proof.
  split; [|split; [|split]].
  - intros [H|H]; unfold App.loadTemplates; rewrite H; simpl;
      (split; [reflexivity | now intros ->]).
  - intros ts H. unfold App.loadTemplates. rewrite H. reflexivity.
  - intros name now iso Hn. rewrite (handleSaveTemplate_named name now iso w Hn).
    reflexivity.
  - intros s Hs H. apply truthy_true in Hs.
    unfold App.loadTemplates. rewrite H. simpl. rewrite Hs. simpl.
    split; [reflexivity | discriminate].
Qed.

Lemma loadTemplates_outcomes_witness :
  let w := {| App.app := App.initial; App.bubble_templates := Some (App.NotJSON "[{") |} in
  "[{" <> EmptyString /\
  App.bubble_templates w = Some (App.NotJSON "[{") /\
  App.loadTemplates w = Threw SyntaxError /\
  forall w', App.loadTemplates w <> Returned w'.
Proof.
  intros w.
  assert (H1 : "[{" <> EmptyString) by discriminate.
  assert (H2 : App.bubble_templates w = Some (App.NotJSON "[{")) by reflexivity.
  split; [exact H1|]. split; [exact H2|].
  exact (proj2 (proj2 (proj2 (loadTemplates_outcomes w))) "[{" H1 H2).
Defined.

(* ================================================================== *)
(** * Restart *)

(** [onRestart] changes the step and nothing else. *)
Lemma onRestart_frame (st : App.State) :
  App.onRestart st =
  {| App.step := App.input;
     App.taskInput := App.taskInput st; App.taskType := App.taskType st;
     App.questions := App.questions st; App.answers := App.answers st;
     App.generatedPrompt := App.generatedPrompt st;
     App.selectedStyles := App.selectedStyles st;
     App.selectedIndustries := App.selectedIndustries st;
     App.templates := App.templates st; App.isSidebarOpen := App.isSidebarOpen st |}.
Proof. reflexivity. Qed.

(** C1, on the code. After the finished session is saved twice and the user
    restarts from the result view, the application is back at the input step
    with its two templates, and the task input, the answers, the prompt and
    the tag selections are those of the finished session, not the initial
    ones. *)
Theorem restart_keeps_session_fields :
  let w := App.applyOps
             [App.Save (Some "小红书") 1770192000000 "2026-02-04T08:00:00.000Z";
              App.Save (Some "文案") 1770192060000 "2026-02-04T08:01:00.000Z"]
             {| App.app := finishedSession; App.bubble_templates := None |} in
  let st := App.onRestart (App.app w) in
  App.step (App.app w) = App.result /\
  App.step st = App.input /\
  length (App.templates st) = 2 /\
  App.taskInput st = "帮我写一段小红书文案" /\
  App.answers st = [("q_platform", "小红书")] /\
  App.generatedPrompt st = App.generatedPrompt finishedSession /\
  App.generatedPrompt st <> App.generatedPrompt App.initial /\
  App.selectedStyles st = ["直接"; "幽默风趣"] /\
  App.selectedStyles st <> App.selectedStyles App.initial /\
  App.selectedIndustries st = ["电商"] /\
  App.selectedIndustries st <> App.selectedIndustries App.initial.
Proof.
  intros w st. vm_compute. repeat split; discriminate.
Qed.

(* ================================================================== *)
(** * Further properties: texts *)

Import MoreProps.

Lemma prefix_app (k a b : string) :
  String.prefix k a = true -> String.prefix k (a ++ b) = true.
Proof.
  revert a; induction k as [|x k IH]; intros a H.
  - destruct (a ++ b); reflexivity.
  - destruct a as [|y a]; simpl in *; [discriminate|].
    destruct (ascii_dec x y); [now apply IH | discriminate].
Qed.

Lemma prefix_self_app (k c : string) : String.prefix k (k ++ c) = true.
Proof.
  induction k as [|x k IH]; simpl.
  - destruct c; reflexivity.
  - destruct (ascii_dec x x) as [_|n]; [exact IH | now elim n].
Qed.

Lemma includes_prefix (s k : string) : String.prefix k s = true -> includes s k = true.
Proof. intros H. destruct s; cbn [includes]; now rewrite H. Qed.

Lemma includes_app_l (a b k : string) :
  includes a k = true -> includes (a ++ b) k = true.
Proof.
  induction a as [|c a IH]; cbn [includes append]; intros H.
  - rewrite orb_false_r in H. apply includes_prefix.
    now apply (prefix_app k EmptyString b).
  - apply orb_true_iff in H as [H|H].
    + apply (prefix_app k (String c a) b) in H. cbn [append] in H. now rewrite H.
    + rewrite (IH H). apply orb_true_r.
Qed.

Lemma includes_app_r (a b k : string) :
  includes b k = true -> includes (a ++ b) k = true.
Proof.
  intros H. induction a as [|c a IH]; cbn [includes append]; [exact H|].
  rewrite IH. apply orb_true_r.
Qed.

Lemma includes_mid (a k c : string) : includes (a ++ k ++ c) k = true.
Proof. apply includes_app_r, includes_prefix, prefix_self_app. Qed.

Lemma mapString_app (f : ascii -> ascii) (a b : string) :
  mapString f (a ++ b) = mapString f a ++ mapString f b.
Proof. induction a as [|c a IH]; simpl; [reflexivity | now rewrite IH]. Qed.

Lemma mentions_surrounded (before s after : string) (keywords : list string) :
  mentions s keywords = true -> mentions (before ++ s ++ after) keywords = true.
Proof.
  unfold mentions. intros H. apply existsb_exists in H as (k & Hin & Hk).
  apply existsb_exists. exists k. split; [exact Hin|].
  unfold toLowerCase in *. rewrite !mapString_app.
  now apply includes_app_r, includes_app_l.
Qed.

Lemma type_coding_mentions (s : string) :
  type (analyzeTask s) = "Coding" -> mentions s codingKeywords = true.
Proof.
  destruct (mentions s codingKeywords) eqn:Hc; [reflexivity|].
  destruct (mentions s marketingKeywords) eqn:Hm;
    [rewrite (analyzeTask_marketing s Hc Hm) | rewrite (analyzeTask_general s Hc Hm)];
    discriminate.
Qed.

(** X1. Text put around an input never takes it out of its rule: an input
    classified as Coding stays Coding with the same questions, and an input
    that matched a rule never falls back to General. *)
Theorem classification_survives_surrounding_text (before s after : string) :
  (type (analyzeTask s) = "Coding" ->
   analyzeTask (before ++ s ++ after) = analyzeTask s) /\
  (type (analyzeTask s) <> "General" ->
   type (analyzeTask (before ++ s ++ after)) <> "General").
Proof.
  split.
  - intros H. apply type_coding_mentions in H.
    rewrite (analyzeTask_coding s H).
    apply analyzeTask_coding. now apply mentions_surrounded.
  - intros H.
    destruct (mentions s codingKeywords) eqn:Hc.
    + rewrite (analyzeTask_coding _ (mentions_surrounded before s after _ Hc)).
      discriminate.
    + destruct (mentions s marketingKeywords) eqn:Hm.
      * pose proof (mentions_surrounded before s after _ Hm) as Hm'.
        destruct (mentions (before ++ s ++ after) codingKeywords) eqn:Hc'.
        -- rewrite (analyzeTask_coding _ Hc'). discriminate.
        -- rewrite (analyzeTask_marketing _ Hc' Hm'). discriminate.
      * elim H. now rewrite (analyzeTask_general s Hc Hm).
Qed.

Lemma classification_survives_surrounding_text_witness :
  type (analyzeTask "写Python脚本") = "Coding" /\
  type (analyzeTask "小红书文案") <> "General" /\
  analyzeTask ("请帮我" ++ "写Python脚本" ++ "，谢谢") = analyzeTask "写Python脚本" /\
  type (analyzeTask ("请帮我" ++ "小红书文案" ++ "，要有代码")) <> "General".
Proof.
  assert (H1 : type (analyzeTask "写Python脚本") = "Coding") by reflexivity.
  assert (H2 : type (analyzeTask "小红书文案") <> "General") by discriminate.
  split; [exact H1|]. split; [exact H2|]. split.
  - exact (proj1 (classification_survives_surrounding_text "请帮我" "写Python脚本" "，谢谢") H1).
  - exact (proj2 (classification_survives_surrounding_text "请帮我" "小红书文案" "，要有代码") H2).
Defined.

(* ================================================================== *)
(** * Further properties: the builder *)

Lemma split_cons (sep : ascii) (s : string) : exists h r, split sep s = h :: r.
Proof.
  induction s as [|c s (h & r & IH)]; simpl; [eauto|].
  destruct (Ascii.eqb c sep); [eauto|]. rewrite IH. eauto.
Qed.

Lemma hd_split_app (sep : ascii) (x z : string) :
  hd EmptyString (split sep (x ++ String sep z)) = hd EmptyString (split sep x).
Proof.
  induction x as [|c x IH]; simpl.
  - now rewrite Ascii.eqb_refl.
  - destruct (Ascii.eqb c sep); [reflexivity|].
    destruct (split_cons sep (x ++ String sep z)) as (h & r & E).
    destruct (split_cons sep x) as (h' & r' & E').
    rewrite E, E' in *. simpl in *. now rewrite IH.
Qed.

Lemma split_no_sep (s : string) :
  includes s " " = false -> split " "%char s = [s].
Proof.
  induction s as [|c s IH]; [reflexivity|].
  cbn [includes]. intros H. apply orb_false_iff in H as [Hp Hi].
  simpl in Hp. simpl.
  destruct (Ascii.eqb_spec c " "%char) as [->|_].
  - destruct (ascii_dec " " " ") as [_|n]; [|now elim n].
    destruct s; discriminate.
  - now rewrite (IH Hi).
Qed.

(** X2. The summary of the prompt restates the industry by taking the second
    word of the context sentence: after [setContext] this is the first word
    of the industry (通用 for an empty industry), hence the whole industry
    when it contains no space, and the fallback 目标 when the industry begins
    with a space; a builder whose context was never set gets 目标. *)
Theorem context_restated_by_first_word
  (industry customContext : string) (b : PromptEngine.CoStarBuilder) :
  let restated (b' : PromptEngine.CoStarBuilder) :=
    orElseU (nth_error (split " "%char (PromptEngine.context b')) 1) "目标" in
  restated (PromptEngine.setContext industry customContext b)
  = orElse (firstWord (orElse industry "通用")) "目标" /\
  (industry <> EmptyString -> includes industry " " = false ->
   restated (PromptEngine.setContext industry customContext b) = industry) /\
  restated PromptEngine.new = "目标".
Proof.
  intros restated.
  assert (H : restated (PromptEngine.setContext industry customContext b)
              = orElse (firstWord (orElse industry "通用")) "目标").
  { unfold restated, PromptEngine.setContext, firstWord. cbn [PromptEngine.context].
    generalize (orElse industry "通用"); intros x.
    assert (Hz : exists z, " 领域的专家。 " ++ customContext = String " "%char z)
      by (eexists; reflexivity).
    destruct Hz as (z & ->).
    cbn [append split]. cbv [Ascii.eqb Bool.eqb]. cbv iota.
    destruct (split_cons " "%char (x ++ String " "%char z)) as (h & r & E).
    pose proof (hd_split_app " "%char x z) as Hh.
    rewrite E in *. cbn [hd] in Hh. cbn [nth_error orElseU]. now rewrite Hh. }
  split; [exact H|]. split; [|reflexivity].
  intros Hne Hsp. rewrite H. apply truthy_true in Hne.
  unfold orElse at 2. rewrite Hne. unfold firstWord.
  rewrite (split_no_sep industry Hsp). cbn [hd]. unfold orElse. now rewrite Hne.
Qed.

Lemma context_restated_by_first_word_witness :
  let restated (b' : PromptEngine.CoStarBuilder) :=
    orElseU (nth_error (split " "%char (PromptEngine.context b')) 1) "目标" in
  "创意写作" <> EmptyString /\ includes "创意写作" " " = false /\
  restated (PromptEngine.setContext "创意写作" EmptyString PromptEngine.new) = "创意写作".
Proof.
  intros restated.
  assert (H1 : "创意写作" <> EmptyString) by discriminate.
  assert (H2 : includes "创意写作" " " = false) by reflexivity.
  split; [exact H1|]. split; [exact H2|].
  exact (proj1 (proj2 (context_restated_by_first_word "创意写作" EmptyString PromptEngine.new))
           H1 H2).
Defined.

Lemma prefix_refl (k : string) : String.prefix k k = true.
Proof.
  induction k as [|x k IH]; simpl; [reflexivity|].
  destruct (ascii_dec x x) as [_|n]; [exact IH | now elim n].
Qed.

Lemma includes_refl (k : string) : includes k k = true.
Proof. apply includes_prefix, prefix_refl. Qed.

Lemma includes_head (k c : string) : includes (k ++ c) k = true.
Proof. apply includes_prefix, prefix_self_app. Qed.

(** Finds a part among the parts of a concatenation, from the left. *)
Ltac find_part :=
  repeat first [apply includes_refl | apply includes_head | apply includes_app_r].


Lemma addStyles_fields (l : list string) (b : PromptEngine.CoStarBuilder) :
  fold_left (fun b s => PromptEngine.addStyle s b) l b =
  {| PromptEngine.context := PromptEngine.context b;
     PromptEngine.objective := PromptEngine.objective b;
     PromptEngine.style := (PromptEngine.style b ++ l)%list;
     PromptEngine.tone := PromptEngine.tone b;
     PromptEngine.audience := PromptEngine.audience b;
     PromptEngine.responseFormat := PromptEngine.responseFormat b;
     PromptEngine.constraints := PromptEngine.constraints b;
     PromptEngine.userInputs := PromptEngine.userInputs b |}.
Proof.
  revert b; induction l as [|s l IH]; intros b.
  - destruct b; simpl. now rewrite app_nil_r.
  - cbn [fold_left]. rewrite IH. simpl. now rewrite <- app_assoc.
Qed.

(** The builder that [handleGenerate] hands to [build], field by field. *)
Lemma configuredBuilder_fields (st : App.State) :
  App.configuredBuilder st =
  {| PromptEngine.context :=
       "你是一位 "
       ++ orElse (orElseU (nth_error (App.selectedIndustries st) 0) "通用") "通用"
       ++ " 领域的专家。 " ++ EmptyString;
     PromptEngine.objective := App.taskInput st;
     PromptEngine.style := App.selectedStyles st;
     PromptEngine.tone := EmptyString;
     PromptEngine.audience := EmptyString;
     PromptEngine.responseFormat :=
       if String.eqb (App.taskType st) "MarketingCopy"
       then "文案格式 (标题 + 正文 + 行动号召)"
       else if String.eqb (App.taskType st) "Coding"
            then "代码块 + Markdown 解释" else "Markdown 结构化格式";
     PromptEngine.constraints :=
       ((if String.eqb (App.taskType st) "Coding"
         then ["遵循 Clean Code 代码规范。"; "为复杂的逻辑逻辑添加中文注释。"] else [])
        ++ (if String.eqb (App.taskType st) "MarketingCopy"
            then ["使用具有说服力的心理学技巧 (如 FOMO, 社会认同)。";
                  "强调产品/服务带来的利益，而非仅仅列举功能。"] else []))%list;
     PromptEngine.userInputs := App.answers st |}.
Proof.
  unfold App.configuredBuilder. rewrite addStyles_fields. cbn.
  destruct (String.eqb (App.taskType st) "Coding");
    destruct (String.eqb (App.taskType st) "MarketingCopy"); reflexivity.
Qed.

(** X3. [handleGenerate] always sets a response format before [build]: the
    format of the preset for Coding and MarketingCopy, and Markdown 结构化格式
    for every other category, so the fallback 结构化 Markdown of [build] is
    never used; the prompt carries that format line, and for a category
    without preset the constraints section opens with the line for no
    special constraint. *)
Theorem generated_format_follows_category (st : App.State) :
  let b := App.configuredBuilder st in
  let prompt := App.generatedPrompt (App.handleGenerate st) in
  PromptEngine.responseFormat b
  = (if String.eqb (App.taskType st) "MarketingCopy"
     then "文案格式 (标题 + 正文 + 行动号召)"
     else if String.eqb (App.taskType st) "Coding"
          then "代码块 + Markdown 解释" else "Markdown 结构化格式") /\
  orElse (PromptEngine.responseFormat b) "结构化 Markdown" = PromptEngine.responseFormat b /\
  includes prompt ("**格式 (Response)**: " ++ PromptEngine.responseFormat b ++ nl) = true /\
  (App.taskType st <> "Coding" -> App.taskType st <> "MarketingCopy" ->
   PromptEngine.constraints b = [] /\
   includes prompt ("# ⛔ 限制条件与质量控制" ++ nl ++ "- 无特殊限制。" ++ nl) = true).
Proof.
  intros b prompt.
  assert (Hf : PromptEngine.responseFormat b
               = (if String.eqb (App.taskType st) "MarketingCopy"
                  then "文案格式 (标题 + 正文 + 行动号召)"
                  else if String.eqb (App.taskType st) "Coding"
                       then "代码块 + Markdown 解释" else "Markdown 结构化格式"))
    by (unfold b; rewrite configuredBuilder_fields; reflexivity).
  assert (Ht : orElse (PromptEngine.responseFormat b) "结构化 Markdown"
               = PromptEngine.responseFormat b).
  { rewrite Hf. destruct (String.eqb (App.taskType st) "MarketingCopy");
      [|destruct (String.eqb (App.taskType st) "Coding")]; reflexivity. }
  split; [exact Hf|]. split; [exact Ht|]. split.
  - unfold prompt, App.handleGenerate. cbn [App.generatedPrompt]. fold b.
    rewrite build_sections.
    apply includes_app_r, includes_app_r, includes_app_l.
    unfold PromptEngine.coStarSection. rewrite Ht.
    find_part.
  - intros Hc Hm.
    assert (Hcs : PromptEngine.constraints b = []).
    { unfold b. rewrite configuredBuilder_fields. cbn.
      apply String.eqb_neq in Hc, Hm. now rewrite Hc, Hm. }
    split; [exact Hcs|].
    unfold prompt, App.handleGenerate. cbn [App.generatedPrompt]. fold b.
    rewrite build_sections.
    do 8 apply includes_app_r. apply includes_app_l.
    unfold PromptEngine.constraintsSection. rewrite Hcs.
    apply includes_prefix. reflexivity.
Qed.

Lemma generated_format_follows_category_witness :
  let st := App.handleWizardComplete empty (App.handleSubmit "写一封邮件" App.initial) in
  App.taskType st <> "Coding" /\ App.taskType st <> "MarketingCopy" /\
  PromptEngine.constraints (App.configuredBuilder st) = [] /\
  includes (App.generatedPrompt (App.handleGenerate st))
    ("# ⛔ 限制条件与质量控制" ++ nl ++ "- 无特殊限制。" ++ nl) = true.
Proof.
  intros st.
  assert (H1 : App.taskType st <> "Coding") by discriminate.
  assert (H2 : App.taskType st <> "MarketingCopy") by discriminate.
  split; [exact H1|]. split; [exact H2|].
  exact (proj2 (proj2 (proj2 (generated_format_follows_category st))) H1 H2).
Defined.






(** X5. [build] removes from the template the line feed before it and the
    line feed after it and nothing else, whatever the fields of the builder
    hold: the prompt begins with the role heading and is never empty. *)
Theorem build_strips_only_the_frame (b : PromptEngine.CoStarBuilder) :
  PromptEngine.template b = nl ++ PromptEngine.build b ++ nl /\
  String.prefix "# 🚀 角色设定 (SYSTEM ROLE)" (PromptEngine.build b) = true /\
  PromptEngine.build b <> EmptyString.
Proof.
  rewrite build_sections. split; [|split].
  - unfold PromptEngine.template. now rewrite !append_assoc.
  - unfold PromptEngine.roleSection. rewrite !append_assoc. apply prefix_self_app.
  - unfold PromptEngine.roleSection. discriminate.
Qed.

(** X6. Presets compose by accumulation: after two presets the constraints
    are the earlier ones, then those of the first preset, then those of the
    second, the response format is that of the second, and no other field of
    the builder has changed.  A format set after a preset replaces the format
    of the preset, and a format set before it is replaced by the preset. *)
Theorem presets_accumulate_and_last_format_wins
  (p q : (PromptEngine.CoStarBuilder -> PromptEngine.CoStarBuilder) * (list string * string))
  (f : string) (b : PromptEngine.CoStarBuilder) :
  In p presets -> In q presets ->
  fst q (fst p b) =
  {| PromptEngine.context := PromptEngine.context b;
     PromptEngine.objective := PromptEngine.objective b;
     PromptEngine.style := PromptEngine.style b;
     PromptEngine.tone := PromptEngine.tone b;
     PromptEngine.audience := PromptEngine.audience b;
     PromptEngine.responseFormat := snd (snd q);
     PromptEngine.constraints :=
       (PromptEngine.constraints b ++ fst (snd p) ++ fst (snd q))%list;
     PromptEngine.userInputs := PromptEngine.userInputs b |} /\
  PromptEngine.responseFormat (PromptEngine.setResponseFormat f (fst p b)) = f /\
  PromptEngine.responseFormat (fst p (PromptEngine.setResponseFormat f b)) = snd (snd p) /\
  PromptEngine.constraints (PromptEngine.setResponseFormat f (fst p b))
  = PromptEngine.constraints (fst p (PromptEngine.setResponseFormat f b)).
Proof.
  intros Hp Hq. unfold presets in Hp, Hq. cbn [In] in Hp, Hq.
  destruct Hp as [<-|[<-|[<-|[]]]]; destruct Hq as [<-|[<-|[<-|[]]]];
    unfold PromptEngine.marketing, PromptEngine.coding, PromptEngine.academic,
      PromptEngine.setResponseFormat, PromptEngine.addConstraint;
    cbn; rewrite <- ?app_assoc; repeat split; reflexivity.
Qed.

Lemma presets_accumulate_and_last_format_wins_witness :
  let p := (PromptEngine.coding,
            (["遵循 Clean Code 代码规范。"; "为复杂的逻辑逻辑添加中文注释。"],
             "代码块 + Markdown 解释")) in
  let q := (PromptEngine.marketing,
            (["使用具有说服力的心理学技巧 (如 FOMO, 社会认同)。";
              "强调产品/服务带来的利益，而非仅仅列举功能。"],
             "文案格式 (标题 + 正文 + 行动号召)")) in
  let b := PromptEngine.new in
  In p presets /\ In q presets /\
  fst q (fst p b) =
  {| PromptEngine.context := PromptEngine.context b;
     PromptEngine.objective := PromptEngine.objective b;
     PromptEngine.style := PromptEngine.style b;
     PromptEngine.tone := PromptEngine.tone b;
     PromptEngine.audience := PromptEngine.audience b;
     PromptEngine.responseFormat := snd (snd q);
     PromptEngine.constraints :=
       (PromptEngine.constraints b ++ fst (snd p) ++ fst (snd q))%list;
     PromptEngine.userInputs := PromptEngine.userInputs b |}.
Proof.
  intros p q b.
  assert (Hp : In p presets) by (right; left; reflexivity).
  assert (Hq : In q presets) by (left; reflexivity).
  split; [exact Hp|]. split; [exact Hq|].
  exact (proj1 (presets_accumulate_and_last_format_wins p q EmptyString b Hp Hq)).
Defined.

(** X7. The prompt of a session depends on the state it starts from only
    through the selected styles and industries: task input, answers and
    prompt left behind by an earlier session do not reach the new prompt. *)
Theorem new_prompt_ignores_stale_session
  (st st' : App.State) (inp : string) (collected : Obj) :
  App.selectedStyles st = App.selectedStyles st' ->
  App.selectedIndustries st = App.selectedIndustries st' ->
  App.generatedPrompt
    (App.handleGenerate (App.handleWizardComplete collected (App.handleStart inp st)))
  = App.generatedPrompt
      (App.handleGenerate (App.handleWizardComplete collected (App.handleStart inp st'))).
Proof.
  intros Hs Hi. unfold App.handleGenerate. cbn [App.generatedPrompt].
  rewrite !configuredBuilder_fields.
  unfold App.handleWizardComplete, App.handleStart.
  cbn [App.selectedIndustries App.selectedStyles App.taskInput App.taskType App.answers].
  now rewrite Hs, Hi.
Qed.

Lemma new_prompt_ignores_stale_session_witness :
  let st := App.onRestart finishedSession in
  let st' := App.toggleIndustry "电商" (App.toggleStyle "幽默风趣" App.initial) in
  App.selectedStyles st = App.selectedStyles st' /\
  App.selectedIndustries st = App.selectedIndustries st' /\
  App.generatedPrompt
    (App.handleGenerate (App.handleWizardComplete empty (App.handleStart "写代码" st)))
  = App.generatedPrompt
      (App.handleGenerate (App.handleWizardComplete empty (App.handleStart "写代码" st'))).
Proof.
  intros st st'.
  assert (H1 : App.selectedStyles st = App.selectedStyles st') by reflexivity.
  assert (H2 : App.selectedIndustries st = App.selectedIndustries st') by reflexivity.
  split; [exact H1|]. split; [exact H2|].
  exact (new_prompt_ignores_stale_session st st' "写代码" empty H1 H2).
Defined.

(* ================================================================== *)
(** * Further properties: the wizard *)

Lemma get_app_absent (o : Obj) (k v k' : string) :
  get o k' = None -> k <> k' -> get (o ++ [(k, v)])%list k' = None.
Proof.
  induction o as [|[k0 v0] o IH]; simpl; intros H Hk.
  - now apply String.eqb_neq in Hk as ->.
  - destruct (String.eqb k0 k'); [discriminate | now apply IH].
Qed.

Lemma put_absent (o : Obj) (k v : string) :
  get o k = None -> put o k v = (o ++ [(k, v)])%list.
Proof.
  induction o as [|[k0 v0] o IH]; simpl; [reflexivity|].
  destruct (String.eqb k0 k); [discriminate|]. intros H. now rewrite IH.
Qed.

Lemma skipn_cons_nth {A : Type} (l : list A) (i : nat) (x : A) (r : list A) :
  skipn i l = x :: r -> nth_error l i = Some x /\ skipn (S i) l = r.
Proof.
  revert l; induction i as [|i IH]; intros l H.
  - destruct l; [discriminate|]. injection H as -> ->. now split.
  - destruct l as [|y l]; [discriminate|]. simpl in H. now apply IH.
Qed.

Lemma recorded_cons (q : Question) (qs : list Question) (s : Wizard.Step)
  (steps : list Wizard.Step) :
  recorded (q :: qs) (s :: steps)
  = ((if records s then [(id q, Wizard.typed s)] else []) ++ recorded qs steps)%list.
Proof.
  unfold recorded. cbn [combine filter snd]. destruct (records s); reflexivity.
Qed.

(** The run from a state whose answers have none of the ids still to come. *)
Lemma run_appends (questions : list Question) (steps : list Wizard.Step) :
  forall (w : Wizard.State) (rest : list Question),
    skipn (Wizard.currentIndex w) questions = rest ->
    rest <> [] ->
    NoDup (map id rest) ->
    ordinaryIds rest ->
    (forall q, In q rest -> get (Wizard.answers w) (id q) = None) ->
    exists w' done,
      Wizard.run questions steps w = Returned (w', done) /\
      Wizard.answers w' = (Wizard.answers w ++ recorded rest steps)%list.
Proof.
  induction steps as [|s steps IH]; intros w rest Hskip Hne Hnd Hord Habs.
  - exists w, None. split; [reflexivity|].
    unfold recorded. rewrite combine_nil. simpl. now rewrite app_nil_r.
  - destruct rest as [|q rest]; [contradiction|].
    destruct (skipn_cons_nth _ _ _ _ Hskip) as [Hq Hskip'].
    destruct (handleNext_at questions (Wizard.skip s)
                (Wizard.setCurrentAnswer (Wizard.typed s) w) q Hq)
      as (w1 & d1 & Hrun & Hans & Hcase).
    simpl in Hans, Hcase. fold (records s) in Hans.
    assert (Hid : id q <> "__proto__") by (inversion Hord; assumption).
    assert (Hans' : Wizard.answers w1
                    = (Wizard.answers w
                       ++ (if records s then [(id q, Wizard.typed s)] else []))%list).
    { rewrite Hans. destruct (records s); [|now rewrite app_nil_r].
      unfold set. apply String.eqb_neq in Hid. rewrite Hid.
      apply put_absent, Habs. now left. }
    cbn [Wizard.run]. unfold Wizard.step. rewrite Hrun. rewrite recorded_cons.
    destruct Hcase as [(Hlt & -> & Hidx)|(Hlast & ->)].
    + assert (Hrest : rest <> []).
      { intros ->. rewrite <- Hskip' in *.
        assert (length (skipn (S (Wizard.currentIndex w)) questions) = 0)
          by now rewrite Hskip'.
        rewrite length_skipn in H. lia. }
      destruct (IH w1 rest) as (w' & done & Hr & Ha); auto.
      * rewrite Hidx. now replace (Wizard.currentIndex w + 1) with (S (Wizard.currentIndex w)) by lia.
      * now inversion Hnd.
      * now inversion Hord.
      * intros q' Hq'. rewrite Hans'.
        destruct (records s).
        -- apply get_app_absent; [apply Habs; now right|].
           inversion Hnd as [|? ? Hnotin _]. intros E. apply Hnotin.
           rewrite E. now apply in_map.
        -- rewrite app_nil_r. apply Habs. now right.
      * exists w', done. split; [exact Hr|]. now rewrite Ha, Hans', <- app_assoc.
    + exists w1, (Some (Wizard.answers w1)). split; [reflexivity|].
      assert (rest = []) as ->.
      { rewrite <- Hskip'. apply skipn_all2. lia. }
      unfold recorded at 1. cbn [combine filter map]. now rewrite app_nil_r.
Qed.

Lemma analyzeTask_ids_distinct (input : string) :
  NoDup (map id (recommendedQuestions (analyzeTask input)))
  /\ Forall (fun q => arrayIndex (id q) = None) (recommendedQuestions (analyzeTask input)).
Proof.
  destruct (mentions input codingKeywords) eqn:Hc;
    [rewrite (analyzeTask_coding input Hc)|
     destruct (mentions input marketingKeywords) eqn:Hm;
     [rewrite (analyzeTask_marketing input Hc Hm)
     |rewrite (analyzeTask_general input Hc Hm)]];
    (split; [repeat constructor; simpl; intuition discriminate
            | repeat constructor]).
Qed.

Lemma entries_named (o : Obj) :
  Forall (fun kv => arrayIndex (fst kv) = None) o -> entries o = o.
Proof.
  intros H.
  assert (Hi : indexed o = []).
  { induction H as [|[k v] o Hk _ IH]; [reflexivity|].
    cbn [indexed fst] in *. now rewrite Hk. }
  unfold entries. rewrite Hi. cbn [map app]. unfold named.
  induction H as [|[k v] o Hk Ho IH]; [reflexivity|].
  cbn [filter fst indexed] in *. rewrite Hk in *. now rewrite (IH Hi).
Qed.

(** X8. In the clarify stage of any session the answers are exactly the
    texts of the steps that record, under the ids of their questions, in the
    order of the questions; [build] prints them in that order. *)
Theorem answers_follow_question_order (input : string) (steps : list Wizard.Step) :
  exists w' done,
    Wizard.run (recommendedQuestions (analyzeTask input)) steps Wizard.initial
    = Returned (w', done) /\
    Wizard.answers w' = recorded (recommendedQuestions (analyzeTask input)) steps /\
    entries (Wizard.answers w') = Wizard.answers w'.
Proof.
  destruct (analyzeTask_questions input) as [Hne Hord].
  destruct (analyzeTask_ids_distinct input) as [Hnd Hidx].
  destruct (run_appends (recommendedQuestions (analyzeTask input)) steps
              Wizard.initial (recommendedQuestions (analyzeTask input)))
    as (w' & done & Hr & Ha); auto.
  exists w', done. split; [exact Hr|]. simpl in Ha. split; [exact Ha|].
  apply entries_named. rewrite Ha. unfold recorded.
  apply Forall_forall. intros kv Hkv.
  apply in_map_iff in Hkv as ([q s] & <- & Hin). apply filter_In in Hin as [Hin _].
  apply in_combine_l in Hin. rewrite Forall_forall in Hidx. now apply Hidx.
Qed.

(** On the last question the index stays where it is. *)
Lemma handleNext_last_index (questions : list Question) (sk : bool)
  (w : Wizard.State) (q : Question) (w' : Wizard.State) (d : option Obj) :
  nth_error questions (Wizard.currentIndex w) = Some q ->
  Wizard.currentIndex w + 1 = length questions ->
  Wizard.handleNext questions sk w = Returned (w', d) ->
  Wizard.currentIndex w' = Wizard.currentIndex w.
Proof.
  intros Hq Hlast. unfold Wizard.handleNext. rewrite Hq.
  destruct (negb sk && truthy (trim (Wizard.currentAnswer w))); simpl;
    destruct (Z.ltb_spec (Z.of_nat (Wizard.currentIndex w))
                         (Z.of_nat (length questions) - 1));
    try lia; intros [= <- _]; reflexivity.
Qed.

Lemma run_cursor (questions : list Question) (steps : list Wizard.Step) :
  forall w, Wizard.currentIndex w < length questions ->
  (Wizard.currentIndex w + length steps < length questions ->
   exists w', Wizard.run questions steps w = Returned (w', None)
              /\ Wizard.currentIndex w' = Wizard.currentIndex w + length steps) /\
  (length questions <= Wizard.currentIndex w + length steps ->
   exists w' a, Wizard.run questions steps w = Returned (w', Some a)
                /\ a = Wizard.answers w'
                /\ Wizard.currentIndex w' + 1 = length questions).
Proof.
  induction steps as [|s steps IH]; intros w Hlt.
  - split; [|simpl; lia]. intros _. exists w. split; [reflexivity | simpl; lia].
  - destruct (nth_error questions (Wizard.currentIndex w)) as [q|] eqn:Hq;
      [|apply nth_error_None in Hq; lia].
    destruct (handleNext_at questions (Wizard.skip s)
                (Wizard.setCurrentAnswer (Wizard.typed s) w) q Hq)
      as (w1 & d1 & Hrun & _ & Hcase).
    simpl in Hcase. cbn [Wizard.run length]. unfold Wizard.step. rewrite Hrun.
    destruct Hcase as [(Hlt1 & -> & Hidx)|(Hlast & ->)].
    + destruct (IH w1) as [Hshort Hlong]; [lia|]. rewrite Hidx in *. split.
      * intros H. destruct Hshort as (w' & Hr & Hi); [lia|].
        exists w'. split; [exact Hr | lia].
      * intros H. apply Hlong. lia.
    + split; [lia|]. intros _. exists w1, (Wizard.answers w1).
      split; [reflexivity|]. split; [reflexivity|].
      rewrite (handleNext_last_index questions (Wizard.skip s)
                 (Wizard.setCurrentAnswer (Wizard.typed s) w) q w1 _ Hq Hlast Hrun).
      simpl. exact Hlast.
Qed.

(** X9. The wizard moves on by one question at every step, whether the step
    answers or skips: with fewer steps than questions it has not completed
    and shows the question after the last step, and [onComplete] is called
    at the step on the last question, never before. *)
Theorem wizard_completes_at_last_question
  (questions : list Question) (steps : list Wizard.Step) :
  (length steps < length questions ->
   exists w', Wizard.run questions steps Wizard.initial = Returned (w', None)
              /\ Wizard.currentIndex w' = length steps) /\
  (questions <> [] -> length questions <= length steps ->
   exists w' a, Wizard.run questions steps Wizard.initial = Returned (w', Some a)
                /\ a = Wizard.answers w'
                /\ Wizard.currentIndex w' + 1 = length questions).
Proof.
  split.
  - intros H.
    destruct (run_cursor questions steps Wizard.initial) as [Hs _]; [simpl; lia|].
    apply Hs. simpl. lia.
  - intros Hne H.
    destruct (run_cursor questions steps Wizard.initial) as [_ Hl].
    + destruct questions; [contradiction | simpl; lia].
    + apply Hl. simpl. lia.
Qed.

Lemma wizard_completes_at_last_question_witness :
  let questions := recommendedQuestions (analyzeTask "写一封邮件") in
  let two := [Wizard.answer "辞职"; Wizard.skipIt] in
  let three := [Wizard.answer "辞职"; Wizard.skipIt; Wizard.skipIt] in
  length two < length questions /\
  questions <> [] /\ length questions <= length three /\
  (exists w', Wizard.run questions two Wizard.initial = Returned (w', None)
              /\ Wizard.currentIndex w' = length two) /\
  (exists w' a, Wizard.run questions three Wizard.initial = Returned (w', Some a)
                /\ a = Wizard.answers w'
                /\ Wizard.currentIndex w' + 1 = length questions).
Proof.
  intros questions two three.
  assert (H1 : length two < length questions) by (simpl; lia).
  assert (H2 : questions <> []) by discriminate.
  assert (H3 : length questions <= length three) by (simpl; lia).
  split; [exact H1|]. split; [exact H2|]. split; [exact H3|]. split.
  - exact (proj1 (wizard_completes_at_last_question questions two) H1).
  - exact (proj2 (wizard_completes_at_last_question questions three) H2 H3).
Defined.

(* ================================================================== *)
(** * Further properties: tags and the task form *)

Lemma existsb_eqb_In (t : string) (p : list string) :
  existsb (String.eqb t) p = true <-> In t p.
Proof.
  rewrite existsb_exists. split.
  - intros (x & Hin & Hx). apply String.eqb_eq in Hx. now subst.
  - intros H. exists t. split; [exact H | apply String.eqb_refl].
Qed.

Lemma filter_other_In (t x : string) (p : list string) :
  In x (filter (fun y => negb (String.eqb y t)) p) <-> In x p /\ x <> t.
Proof.
  rewrite filter_In, negb_true_iff, String.eqb_neq. reflexivity.
Qed.

Lemma filter_absent (t : string) (p : list string) :
  ~ In t p -> filter (fun y => negb (String.eqb y t)) p = p.
Proof.
  induction p as [|y p IH]; simpl; [reflexivity|]. intros H.
  destruct (String.eqb_spec y t) as [->|_]; simpl.
  - elim H. now left.
  - f_equal. apply IH. intros Hin. apply H. now right.
Qed.

(** X10. Pressing a tag flips the membership of that tag and of no other, and
    keeps a selection free of duplicates; pressing it twice gives back the
    same set of tags, and the very same list when the tag was not
    selected. *)
Theorem toggle_flips_one_tag (t : string) (p : list string) :
  (In t (App.toggle t p) <-> ~ In t p) /\
  (forall x, x <> t -> (In x (App.toggle t p) <-> In x p)) /\
  (NoDup p -> NoDup (App.toggle t p)) /\
  (forall x, In x (App.toggle t (App.toggle t p)) <-> In x p) /\
  (~ In t p -> App.toggle t (App.toggle t p) = p).
Proof.
  assert (Hin : In t (App.toggle t p) <-> ~ In t p).
  { unfold App.toggle. destruct (existsb (String.eqb t) p) eqn:E.
    - apply existsb_eqb_In in E. rewrite filter_other_In. intuition.
    - assert (~ In t p) by (rewrite <- existsb_eqb_In; congruence).
      rewrite in_app_iff. simpl. intuition. }
  assert (Hother : forall q x, x <> t -> (In x (App.toggle t q) <-> In x q)).
  { intros q x Hx. unfold App.toggle. destruct (existsb (String.eqb t) q).
    - rewrite filter_other_In. intuition.
    - rewrite in_app_iff. simpl. intuition congruence. }
  assert (Hoff : ~ In t p -> App.toggle t (App.toggle t p) = p).
  { intros H. unfold App.toggle at 2.
    destruct (existsb (String.eqb t) p) eqn:E;
      [apply existsb_eqb_In in E; contradiction|].
    unfold App.toggle.
    assert (E' : existsb (String.eqb t) (p ++ [t]) = true)
      by (apply existsb_eqb_In, in_or_app; right; now left).
    rewrite E', filter_app, (filter_absent t p H). simpl.
    rewrite String.eqb_refl. simpl. apply app_nil_r. }
  split; [exact Hin|]. split; [apply Hother|]. split; [|split; [|exact Hoff]].
  - intros Hnd. unfold App.toggle. destruct (existsb (String.eqb t) p) eqn:E.
    + now apply NoDup_filter.
    + assert (Hn : ~ In t p) by (rewrite <- existsb_eqb_In; congruence).
      clear E Hin Hother Hoff. induction Hnd as [|y p Hy Hnd IH]; simpl.
      * repeat constructor. intros [].
      * constructor.
        -- rewrite in_app_iff. simpl. intros [H|[H|[]]]; [contradiction|].
           apply Hn. now left.
        -- apply IH. intros H. apply Hn. now right.
  - intros x. destruct (String.eqb_spec x t) as [->|Hx].
    + assert (H2 : In t (App.toggle t (App.toggle t p)) <-> ~ In t (App.toggle t p)).
      { unfold App.toggle at 1 3.
        destruct (existsb (String.eqb t) (App.toggle t p)) eqn:E.
        - apply existsb_eqb_In in E. rewrite filter_other_In. intuition.
        - assert (~ In t (App.toggle t p)) by (rewrite <- existsb_eqb_In; congruence).
          rewrite in_app_iff. simpl. intuition. }
      rewrite H2, Hin. destruct (in_dec string_dec t p); intuition.
    + rewrite (Hother (App.toggle t p) x Hx). now apply Hother.
Qed.

Lemma toggle_flips_one_tag_witness :
  let p := ["直接"; "幽默风趣"] in
  NoDup p /\ ~ In "极客硬核" p /\
  NoDup (App.toggle "幽默风趣" p) /\
  App.toggle "极客硬核" (App.toggle "极客硬核" p) = p.
Proof.
  intros p.
  assert (H1 : NoDup p)
    by (repeat constructor; simpl; intuition discriminate).
  assert (H2 : ~ In "极客硬核" p) by (simpl; intuition discriminate).
  split; [exact H1|]. split; [exact H2|]. split.
  - exact (proj1 (proj2 (proj2 (toggle_flips_one_tag "幽默风趣" p))) H1).
  - exact (proj2 (proj2 (proj2 (proj2 (toggle_flips_one_tag "极客硬核" p)))) H2).
Defined.

(** X11. The task form lets only an input through that is not blank: an
    input of white space only (the empty input among them) leaves the state
    as it is; any other input starts the wizard with the input as typed,
    classified, and keeps the templates and the tag selections. *)
Theorem blank_input_is_rejected (inp : string) (st : App.State) :
  (whitespaceOnly inp -> App.handleSubmit inp st = st) /\
  (trim inp = EmptyString -> App.handleSubmit inp st = st) /\
  (trim inp <> EmptyString ->
   App.step (App.handleSubmit inp st) = App.wizard /\
   App.taskInput (App.handleSubmit inp st) = inp /\
   App.taskType (App.handleSubmit inp st) = type (analyzeTask inp) /\
   App.questions (App.handleSubmit inp st) = recommendedQuestions (analyzeTask inp) /\
   App.questions (App.handleSubmit inp st) <> [] /\
   App.templates (App.handleSubmit inp st) = App.templates st /\
   App.selectedStyles (App.handleSubmit inp st) = App.selectedStyles st /\
   App.selectedIndustries (App.handleSubmit inp st) = App.selectedIndustries st).
Proof.
  assert (Hb : trim inp = EmptyString -> App.handleSubmit inp st = st).
  { intros H. unfold App.handleSubmit. now rewrite H. }
  split; [intros H; apply Hb; now apply trim_whitespaceOnly|].
  split; [exact Hb|].
  intros H. apply truthy_true in H. unfold App.handleSubmit. rewrite H.
  repeat split. cbn [App.questions App.handleStart]. apply analyzeTask_questions.
Qed.

Lemma blank_input_is_rejected_witness :
  let blank := String (ascii_of_nat 32) (String (ascii_of_nat 9) EmptyString) in
  trim blank = EmptyString /\
  trim "  写代码 " <> EmptyString /\
  App.handleSubmit blank finishedSession = finishedSession /\
  App.step (App.handleSubmit "  写代码 " App.initial) = App.wizard /\
  App.taskInput (App.handleSubmit "  写代码 " App.initial) = "  写代码 ".
Proof.
  intros blank.
  assert (H1 : trim blank = EmptyString) by reflexivity.
  assert (H2 : trim "  写代码 " <> EmptyString) by discriminate.
  split; [exact H1|]. split; [exact H2|]. split.
  - exact (proj1 (proj2 (blank_input_is_rejected blank finishedSession)) H1).
  - pose proof (proj2 (proj2 (blank_input_is_rejected "  写代码 " App.initial)) H2) as H.
    split; [exact (proj1 H) | exact (proj1 (proj2 H))].
Defined.

(* ================================================================== *)
(** * Further properties: the template collection *)

Lemma filter_id_absent (i : Z) (ts : list Template.t) :
  ~ In i (map Template.id ts) ->
  filter (fun t => negb (Z.eqb (Template.id t) i)) ts = ts.
Proof.
  induction ts as [|t ts IH]; simpl; [reflexivity|]. intros H.
  destruct (Z.eqb_spec (Template.id t) i) as [E|_]; simpl.
  - elim H. now left.
  - f_equal. apply IH. intros Hin. apply H. now right.
Qed.

(** X12. Deleting by an id that no template has leaves the collection as it
    is; after a delete no template has the id, so a second delete by the same
    id changes nothing; a save with a fresh clock value followed by the
    delete by that value gives back the collection from before the save.  A
    delete writes the collection to the storage even when it removed
    nothing. *)
Theorem delete_removes_exactly_the_id (i : Z) (w : App.World) :
  (~ In i (App.ids w) ->
   App.templates (App.app (App.handleDeleteTemplate i w)) = App.templates (App.app w)) /\
  ~ In i (App.ids (App.handleDeleteTemplate i w)) /\
  App.handleDeleteTemplate i (App.handleDeleteTemplate i w) = App.handleDeleteTemplate i w /\
  (forall name iso, name <> EmptyString -> ~ In i (App.ids w) ->
   App.templates (App.app (App.handleDeleteTemplate i
                             (App.handleSaveTemplate (Some name) i iso w)))
   = App.templates (App.app w)) /\
  App.bubble_templates (App.handleDeleteTemplate i w)
  = Some (App.JSONOf (App.templates (App.app (App.handleDeleteTemplate i w)))).
Proof.
  assert (Habsent : forall w', ~ In i (App.ids w') ->
            App.templates (App.app (App.handleDeleteTemplate i w'))
            = App.templates (App.app w')).
  { intros w' H. unfold App.handleDeleteTemplate. cbn [App.app App.templates App.setTemplates].
    now apply filter_id_absent. }
  assert (Hgone : ~ In i (App.ids (App.handleDeleteTemplate i w))).
  { rewrite ids_delete. intros H. apply filter_In in H as [_ H].
    now rewrite Z.eqb_refl in H. }
  split; [apply Habsent|]. split; [exact Hgone|]. split; [|split; [|reflexivity]].
  - pose proof (Habsent _ Hgone) as H.
    unfold App.handleDeleteTemplate in *.
    cbn [App.app App.templates App.setTemplates] in *. rewrite H.
    destruct w as [[] ?]; reflexivity.
  - intros name iso Hn Hi. rewrite (handleSaveTemplate_named name i iso w Hn).
    unfold App.handleDeleteTemplate.
    cbn [App.app App.templates App.setTemplates App.setIsSidebarOpen filter Template.id].
    rewrite Z.eqb_refl. cbn [negb]. now apply filter_id_absent.
Qed.

Lemma delete_removes_exactly_the_id_witness :
  let w := {| App.app := finishedSession; App.bubble_templates := None |} in
  ~ In 1770192000000%Z (App.ids w) /\
  "小红书" <> EmptyString /\
  App.templates (App.app (App.handleDeleteTemplate 1770192000000 w))
  = App.templates (App.app w) /\
  App.templates (App.app (App.handleDeleteTemplate 1770192000000
                            (App.handleSaveTemplate (Some "小红书") 1770192000000
                               "2026-02-04T08:00:00.000Z" w)))
  = App.templates (App.app w).
Proof.
  intros w.
  assert (H1 : ~ In 1770192000000%Z (App.ids w)) by (intros []).
  assert (H2 : "小红书" <> EmptyString) by discriminate.
  split; [exact H1|]. split; [exact H2|]. split.
  - exact (proj1 (delete_removes_exactly_the_id 1770192000000 w) H1).
  - exact (proj1 (proj2 (proj2 (proj2 (delete_removes_exactly_the_id 1770192000000 w))))
             "小红书" "2026-02-04T08:00:00.000Z" H2 H1).
Defined.

(** X13. Saves put the newest template first: after a sequence of saves the
    ids of the collection are the clock values of the saves that stored a
    template, latest first, followed by the ids from before. *)
Theorem saves_put_newest_first (ops : list App.TemplateOp) (w : App.World) :
  forallb isSave ops = true ->
  App.ids (App.applyOps ops w) = (rev (storedTimes ops) ++ App.ids w)%list.
Proof.
  revert w. induction ops as [|op ops IH]; intros w H; [reflexivity|].
  cbn [forallb] in H. apply andb_true_iff in H as [Hop H].
  unfold App.applyOps in *. cbn [fold_left]. rewrite (IH _ H).
  destruct op as [[name|] now iso|i]; [| |discriminate]; cbn [storedTimes App.applyOp].
  - destruct (truthy name) eqn:Hn.
    + rewrite (ids_save name now iso w Hn). cbn [rev]. now rewrite <- app_assoc.
    + unfold App.handleSaveTemplate. now rewrite Hn.
  - reflexivity.
Qed.

Lemma saves_put_newest_first_witness :
  let w := {| App.app := finishedSession; App.bubble_templates := None |} in
  let ops := [App.Save (Some "小红书") 1770192000000 "2026-02-04T08:00:00.000Z";
              App.Save None 1770192030000 "2026-02-04T08:00:30.000Z";
              App.Save (Some "文案") 1770192060000 "2026-02-04T08:01:00.000Z"] in
  forallb isSave ops = true /\
  App.ids (App.applyOps ops w) = (rev (storedTimes ops) ++ App.ids w)%list /\
  rev (storedTimes ops) = [1770192060000%Z; 1770192000000%Z].
Proof.
  intros w ops.
  assert (H : forallb isSave ops = true) by reflexivity.
  split; [exact H|]. split; [|reflexivity].
  exact (saves_put_newest_first ops w H).
Defined.

(* ================================================================== *)
(** * Further properties: the page *)

(** A builder whose first style is 直接 gives a prompt with the tone line of
    that style. *)
Lemma build_includes_toneLine (b : PromptEngine.CoStarBuilder) :
  (exists r, PromptEngine.style b = "直接" :: r) ->
  includes (PromptEngine.build b) toneLine = true.
Proof.
  intros (r & Hs). rewrite build_sections.
  do 8 apply includes_app_r. apply includes_app_l.
  unfold PromptEngine.constraintsSection. rewrite Hs. cbn [nth_error orElseU].
  do 8 apply includes_app_r. apply includes_prefix. reflexivity.
Qed.

Lemma toggle_keeps_head (t h : string) (r : list string) :
  t <> h -> App.toggle t (h :: r) = h :: App.toggle t r.
Proof.
  intros H. unfold App.toggle. cbn [existsb filter].
  assert (E1 : String.eqb t h = false) by now apply String.eqb_neq.
  assert (E2 : String.eqb h t = false) by (apply String.eqb_neq; congruence).
  rewrite E1, E2. cbn [orb negb]. destruct (existsb (String.eqb t) r); reflexivity.
Qed.

Lemma styleOption_not_default (t : string) :
  existsb (String.eqb t) Page.styleOptions = true -> t <> "直接".
Proof.
  intros H. apply existsb_eqb_In in H. unfold Page.styleOptions in H. cbn [In] in H.
  repeat (destruct H as [<-|H]; [discriminate|]). destruct H.
Qed.

Ltac page_unfold :=
  unfold Page.onApp, Page.onWorld, App.onRestart, App.setStep, App.setIsSidebarOpen,
    App.setTemplates, App.toggleStyle, App.toggleIndustry, App.setSelectedStyles,
    App.setSelectedIndustries, App.handleWizardComplete, App.handleGenerate,
    App.handleLoadTemplate, App.handleStart, App.handleDeleteTemplate, classified, stored in *;
  cbn [Page.world Page.wizardState App.app App.bubble_templates App.step App.taskInput
       App.taskType App.questions App.answers App.generatedPrompt App.selectedStyles
       App.selectedIndustries App.templates App.isSidebarOpen] in *.

Ltac inv_same :=
  constructor; page_unfold;
  try assumption; try discriminate; try congruence; auto.

Lemma Inv_fresh : Inv Page.fresh.
Proof.
  constructor; try discriminate.
  - now exists [].
  - constructor.
  - left. split; reflexivity.
Qed.

(** No event throws in a state that satisfies the invariant, and the next
    state satisfies it. *)
Lemma dispatch_Inv (e : Page.Event) (s : Page.State) :
  Inv s -> exists s', Page.dispatch e s = Returned s' /\ Inv s'.
Proof.
  intros HI. destruct s as [[st sto] wz].
  destruct HI as [Hw Ht Hs Hr Htpl Hsto]. page_unfold.
  assert (Hsame : Inv {| Page.world := {| App.app := st; App.bubble_templates := sto |};
                         Page.wizardState := wz |}) by (constructor; assumption).
  destruct e as [inp|ws|t|t| |name now iso| | | | |n|n| ];
    unfold Page.dispatch; cbn [Page.world Page.wizardState App.app App.bubble_templates].
  - (* Submit *)
    destruct (App.step st) eqn:Hstep; try (eexists; split; [reflexivity | exact Hsame]).
    eexists; split; [reflexivity|]. unfold App.handleSubmit.
    destruct (truthy (trim inp)) eqn:Hb.
    + apply truthy_true in Hb. constructor; page_unfold; try discriminate; auto.
      intros _. split; [repeat split; assumption|].
      destruct (analyzeTask_questions inp) as [Hne _].
      destruct (recommendedQuestions (analyzeTask inp)); [contradiction | simpl; lia].
    + constructor; page_unfold; try assumption; rewrite Hstep; discriminate.
  - (* Press *)
    destruct (App.step st) eqn:Hstep; try (eexists; split; [reflexivity | exact Hsame]).
    destruct (Hw eq_refl) as [Hcl Hidx].
    destruct (nth_error (App.questions st) (Wizard.currentIndex wz)) as [q|] eqn:Hq;
      [|apply nth_error_None in Hq; lia].
    destruct (handleNext_at (App.questions st) (Wizard.skip ws)
                (Wizard.setCurrentAnswer (Wizard.typed ws) wz) q Hq)
      as (w1 & d1 & Hrun & _ & Hcase).
    unfold Wizard.step. rewrite Hrun.
    destruct Hcase as [(Hlt & -> & Hi)|(_ & ->)];
      (eexists; split; [reflexivity|]).
    + constructor; page_unfold; try assumption; try (rewrite Hstep; discriminate).
      intros _. split; [exact Hcl|]. simpl in Hi, Hlt. lia.
    + constructor; page_unfold; try assumption; try discriminate. auto.
  - (* ToggleStyle *)
    destruct (App.step st) eqn:Hstep; try (eexists; split; [reflexivity | exact Hsame]).
    destruct (existsb (String.eqb t) Page.styleOptions) eqn:Hopt;
      (eexists; split; [reflexivity|]); [|exact Hsame].
    constructor; page_unfold; try assumption; try (rewrite Hstep; discriminate); auto.
    destruct Hs as (r & ->). rewrite toggle_keeps_head; eauto.
    now apply styleOption_not_default.
  - (* ToggleIndustry *)
    destruct (App.step st) eqn:Hstep; try (eexists; split; [reflexivity | exact Hsame]).
    destruct (existsb (String.eqb t) Page.industryOptions);
      (eexists; split; [reflexivity|]); [|exact Hsame].
    constructor; page_unfold; try assumption; try (rewrite Hstep; discriminate); auto.
  - (* Generate *)
    destruct (App.step st) eqn:Hstep; try (eexists; split; [reflexivity | exact Hsame]).
    eexists; split; [reflexivity|].
    constructor; page_unfold; try assumption; try discriminate.
    intros _. apply build_includes_toneLine.
    rewrite configuredBuilder_fields. exact Hs.
  - (* ClickSave *)
    destruct (App.step st) eqn:Hstep; try (eexists; split; [reflexivity | exact Hsame]).
    eexists; split; [reflexivity|]. page_unfold.
    destruct name as [name|]; [|exact Hsame].
    destruct (truthy name) eqn:Hn;
      [|unfold App.handleSaveTemplate; rewrite Hn; exact Hsame].
    apply truthy_true in Hn. rewrite (handleSaveTemplate_named name now iso _ Hn).
    cbv zeta. constructor; page_unfold; try assumption; try (rewrite Hstep; discriminate).
    + intros _. exact (Hr eq_refl).
    + constructor; [|exact Htpl]. split; [exact Hs | exact (Hr eq_refl)].
    + now right.
  - (* Restart *)
    destruct (App.step st) eqn:Hstep; try (eexists; split; [reflexivity | exact Hsame]).
    eexists; split; [reflexivity|]. inv_same.
  - (* Logo *)
    eexists; split; [reflexivity|]. inv_same.
  - (* OpenSidebar *)
    eexists; split; [reflexivity|]. inv_same.
  - (* CloseSidebar *)
    eexists; split; [reflexivity|]. inv_same.
  - (* ClickLoad *)
    destruct (nth_error (App.templates st) n) as [tpl|] eqn:Hn;
      (eexists; split; [reflexivity|]); [|exact Hsame].
    apply nth_error_In in Hn. rewrite Forall_forall in Htpl.
    destruct (Htpl tpl Hn) as [Hts Htp].
    constructor; page_unfold; try assumption; try discriminate; auto.
    now apply Forall_forall.
  - (* ClickDelete *)
    destruct (nth_error (App.templates st) n) as [tpl|] eqn:Hn;
      (eexists; split; [reflexivity|]); [|exact Hsame].
    constructor; page_unfold; try assumption; auto.
    rewrite Forall_forall in *. intros x Hx. apply filter_In in Hx as [Hx _]. auto.
  - (* Reload *)
    unfold App.loadTemplates. cbn [App.bubble_templates].
    destruct Hsto as [[Hnone Hnil] | Hsome]; [rewrite Hnone | rewrite Hsome].
    + eexists; split; [reflexivity|]. exact Inv_fresh.
    + cbn [App.storedTruthy App.JSON_parse bind]. eexists; split; [reflexivity|].
      constructor; page_unfold; try discriminate; auto.
      now exists [].
Qed.

Lemma run_Inv (events : list Page.Event) :
  forall s, Inv s -> exists s', Page.run events s = Returned s' /\ Inv s'.
Proof.
  induction events as [|e events IH]; intros s HI.
  - exists s. now split.
  - destruct (dispatch_Inv e s HI) as (s1 & H1 & HI1).
    destruct (IH s1 HI1) as (s' & H' & HI').
    exists s'. split; [|exact HI']. cbn [Page.run]. now rewrite H1.
Qed.


(** X15. Whenever the page shows the wizard or the tag selectors, the
    category and the questions of the state are those the classifier gives
    for the task input of the state, which is not blank; the preset applied
    by the next generation is therefore the one of the task shown in the
    prompt.  While the wizard is shown its index points at a question. *)
Theorem shown_session_is_classified (events : list Page.Event) :
  exists s,
    Page.run events Page.fresh = Returned s /\
    (App.step (App.app (Page.world s)) = App.wizard
     \/ App.step (App.app (Page.world s)) = App.tagging ->
     classified (App.app (Page.world s))) /\
    (App.step (App.app (Page.world s)) = App.wizard ->
     Wizard.currentIndex (Page.wizardState s)
     < length (App.questions (App.app (Page.world s)))).
Proof.
  destruct (run_Inv events Page.fresh Inv_fresh) as (s & H & [Hw Ht _ _ _ _]).
  exists s. split; [exact H|]. split.
  - intros [E|E]; [exact (proj1 (Hw E)) | exact (Ht E)].
  - intros E. exact (proj2 (Hw E)).
Qed.

Lemma shown_session_is_classified_witness :
  let events := [Page.Submit "帮我写一段小红书文案"; Page.Press (Wizard.answer "小红书");
                 Page.Logo; Page.Submit "写一个python脚本"; Page.Press Wizard.skipIt] in
  exists s,
    Page.run events Page.fresh = Returned s /\
    (App.step (App.app (Page.world s)) = App.wizard
     \/ App.step (App.app (Page.world s)) = App.tagging ->
     classified (App.app (Page.world s))) /\
    (App.step (App.app (Page.world s)) = App.wizard ->
     Wizard.currentIndex (Page.wizardState s)
     < length (App.questions (App.app (Page.world s)))).
Proof.
  intros events. exact (shown_session_is_classified events).
Defined.

(** X16. The first selected style is always 直接: no tag button removes it,
    and every template stores a selection that begins with it.  Hence, on a
    page opened fresh, the prompt shown in the result view always has the
    tone line of the style 直接, whichever styles were chosen, and so has the
    prompt of every template. *)
Theorem first_style_is_always_the_default (events : list Page.Event) :
  exists s,
    Page.run events Page.fresh = Returned s /\
    (exists r, App.selectedStyles (App.app (Page.world s)) = "直接" :: r) /\
    (App.step (App.app (Page.world s)) = App.result ->
     includes (App.generatedPrompt (App.app (Page.world s))) toneLine = true) /\
    Forall goodTemplate (App.templates (App.app (Page.world s))).
Proof.
  destruct (run_Inv events Page.fresh Inv_fresh) as (s & H & [_ _ Hs Hr Ht _]).
  exists s. auto.
Qed.

Lemma first_style_is_always_the_default_witness :
  let events := [Page.Submit "帮我写一段小红书文案"; Page.Press (Wizard.answer "小红书");
                 Page.Press Wizard.skipIt; Page.Press Wizard.skipIt;
                 Page.ToggleStyle "幽默风趣"; Page.ToggleStyle "直接"; Page.Generate] in
  exists s,
    Page.run events Page.fresh = Returned s /\
    (exists r, App.selectedStyles (App.app (Page.world s)) = "直接" :: r) /\
    (App.step (App.app (Page.world s)) = App.result ->
     includes (App.generatedPrompt (App.app (Page.world s))) toneLine = true) /\
    Forall goodTemplate (App.templates (App.app (Page.world s))).
Proof.
  intros events. exact (first_style_is_always_the_default events).
Defined.


(** X18. [handleGenerate] never sets an audience: the summary of every
    generated prompt names 普通用户 as audience, whatever was answered to a
    question on the audience, and states the task input as typed as the
    objective. *)
Theorem generated_summary_lines (st : App.State) :
  PromptEngine.audience (App.configuredBuilder st) = EmptyString /\
  includes (App.generatedPrompt (App.handleGenerate st))
    ("**目标 (Objective)**: " ++ App.taskInput st ++ nl
     ++ "**风格 (Style)**: " ++ orElse (join "、" (App.selectedStyles st)) "专业、清晰" ++ nl
     ++ "**受众 (Audience)**: " ++ "普通用户" ++ nl) = true.
Proof.
  split; [now rewrite configuredBuilder_fields|].
  unfold App.handleGenerate. cbn [App.generatedPrompt].
  rewrite build_sections. apply includes_app_r, includes_app_r, includes_app_l.
  unfold PromptEngine.coStarSection, PromptEngine.styleStr.
  rewrite configuredBuilder_fields.
  cbn [PromptEngine.objective PromptEngine.style PromptEngine.audience
       PromptEngine.context PromptEngine.responseFormat].
  change (orElse EmptyString "普通用户") with "普通用户".
  do 6 apply includes_app_r.
  rewrite <- !append_assoc. do 3 apply includes_app_l.
  rewrite !append_assoc. apply includes_refl.
Qed.

(** X19. Only saving, deleting and reloading touch the template collection:
    every other event, in any state of the page, leaves the collection and
    the storage as they are (submitting, answering, choosing tags,
    generating, restarting, opening or closing the sidebar, and loading a
    template). *)
Theorem other_events_keep_the_collection (e : Page.Event) (s s' : Page.State) :
  writesCollection e = false ->
  Page.dispatch e s = Returned s' ->
  App.templates (App.app (Page.world s')) = App.templates (App.app (Page.world s)) /\
  App.bubble_templates (Page.world s') = App.bubble_templates (Page.world s).
Proof.
  intros He H. destruct s as [[st sto] wz].
  destruct e as [inp|ws|t|t| |name now iso| | | | |n|n| ]; try discriminate He;
    unfold Page.dispatch in H; cbn [Page.world Page.wizardState App.app] in H.
  - destruct (App.step st); injection H as <-; try (split; reflexivity).
    unfold App.handleSubmit. destruct (truthy (trim inp)); split; reflexivity.
  - destruct (App.step st); try (injection H as <-; split; reflexivity).
    destruct (Wizard.step (App.questions st) ws wz) as [[w' [a|]]|]; [| |discriminate];
      injection H as <-; split; reflexivity.
  - destruct (App.step st); try (injection H as <-; split; reflexivity).
    destruct (existsb (String.eqb t) Page.styleOptions);
      injection H as <-; split; reflexivity.
  - destruct (App.step st); try (injection H as <-; split; reflexivity).
    destruct (existsb (String.eqb t) Page.industryOptions);
      injection H as <-; split; reflexivity.
  - destruct (App.step st); injection H as <-; split; reflexivity.
  - destruct (App.step st); injection H as <-; split; reflexivity.
  - injection H as <-; split; reflexivity.
  - injection H as <-; split; reflexivity.
  - injection H as <-; split; reflexivity.
  - destruct (nth_error (App.templates st) n); injection H as <-; split; reflexivity.
Qed.

Lemma other_events_keep_the_collection_witness :
  let s := {| Page.world :=
                App.handleSaveTemplate (Some "小红书") 1770192000000
                  "2026-02-04T08:00:00.000Z"
                  {| App.app := finishedSession; App.bubble_templates := None |};
              Page.wizardState := Wizard.initial |} in
  let s' := Page.onApp App.onRestart s in
  writesCollection Page.Restart = false /\
  Page.dispatch Page.Restart s = Returned s' /\
  App.templates (App.app (Page.world s')) = App.templates (App.app (Page.world s)) /\
  App.bubble_templates (Page.world s') = App.bubble_templates (Page.world s).
Proof.
  intros s s'.
  assert (H1 : writesCollection Page.Restart = false) by reflexivity.
  assert (H2 : Page.dispatch Page.Restart s = Returned s') by reflexivity.
  split; [exact H1|]. split; [exact H2|].
  exact (other_events_keep_the_collection Page.Restart s s' H1 H2).
Defined.
